(** * LCV allocation API: a shallow embedding of [main.py]

    The development follows the source top-down: the data the service
    handles (dataset rows, the ordered vehicle-to-stage mapping, the
    allocation dictionaries), the core function
    [allocate_lcvs_to_routes_api], a store-passing rendering of the same
    function that makes Python's object identity explicit, and the request
    handler [create_allocation].

    Conventions.
    - The dataset has the columns the program reads.  The numeric columns
      [Distance] and [Duration] are integers ([Z]); missing values (NaN) are
      outside the model.
    - A Python [dict] that is only looked up by key is a [gmap]; the request's
      [lcv_stage_assignments], whose insertion order drives the allocation, is
      an association list in insertion order.
    - [sorted] is Python's built-in, which the language guarantees stable.
    - [DataFrame.sort_values] is pandas'; the source calls it with the default
      [kind], so the model takes the sort as an interface ([SortKernel]) that
      promises what pandas documents: a reordering of the rows that is
      descending in the sort column.  The default algorithm itself, numpy's
      scalar quicksort, is [npysort.aquicksort].
    - [pd.to_datetime(s).date()] is a parameter of the endpoint; it returns a
      date or [NaT], or raises. *)

From Stdlib Require Import ZArith Lia.
From stdpp Require Import base option list strings gmap sorting.

Local Open Scope string_scope.
Local Open Scope list_scope.

(** ** Data model *)

(** A calendar date without a time component: year, month, day. *)
Definition Date : Type := (Z * Z * Z)%type.

(** One row of the dataset, with the columns the program reads. *)
Module Row.
Record t : Type := mk {
  Request_id : string;
  Route_id : string;
  DBS : string;
  Distance : Z;
  Duration : Z;
  MGS : string;
  date_only : Date
}.
End Row.

(** A [DataFrame] is its rows, in index order. *)
Abbreviation DataFrame := (list Row.t).

(** The dictionary built for every route inside the loop. *)
Module Info.
Record t : Type := mk {
  request_id : string;
  Route_id : string;
  DBS : string;
  Distance : Z;
  Duration : Z;
  Allocated_LCV : string
}.

(** [allocation_info['Allocated_LCV'] = lcv] *)
Definition set_Allocated_LCV (info : t) (lcv : string) : t :=
  mk (request_id info) (Route_id info) (DBS info) (Distance info)
     (Duration info) lcv.
End Info.

#[global] Instance Row_eq_dec : EqDecision Row.t.
Proof. solve_decision. Defined.

#[global] Instance Info_eq_dec : EqDecision Info.t.
Proof. solve_decision. Defined.

(** [Dict[str, str]] with its insertion order. *)
Abbreviation Dict := (list (string * string)).

(** [d.keys()], in insertion order. *)
Definition keys (d : Dict) : list string := d.*1.

(** [d.get(k)]: [None] when the key is absent. *)
Fixpoint dict_get (d : Dict) (k : string) : option string :=
  match d with
  | [] => None
  | (k', v) :: d' => if decide (k' = k) then Some v else dict_get d' k
  end.

(** The request body. *)
Record AllocationRequest : Type := {
  selected_date : string;
  selected_mgs : string;
  selected_request_ids : list string;
  lcv_stage_assignments : Dict
}.

(** ** Core allocation logic *)

Definition STAGE3 : string := "Stage 3 (Filled – Waiting Area/Moving to DBS)".
Definition STAGE2 : string := "Stage 2 (Filling – Safe Zone)".
Definition STAGE1 : string := "Stage 1 (Empty - Waiting Area)".

(** The literal dictionary [stage_priority]. *)
Definition stage_priority : gmap string Z :=
  {[ STAGE3 := 1%Z; STAGE2 := 2%Z; STAGE1 := 3%Z ]}.

(** [stage_priority.get(stage, dflt)], where [stage] is itself the result of
    a [get] and so may be [None]; [None] is not a key of the table. *)
Definition stage_priority_get (stage : option string) (dflt : Z) : Z :=
  match stage with
  | Some s => default dflt (stage_priority !! s)
  | None => dflt
  end.

(** The sort key
    [lambda lcv: stage_priority.get(lcv_assignments.get(lcv), 99)]. *)
Definition lcv_key (lcv_assignments : Dict) (lcv : string) : Z :=
  stage_priority_get (dict_get lcv_assignments lcv) 99.

(** Python's [sorted(l, key=key)]: ascending by key, equal keys in their
    original order.  The element at the head of the input is placed in front
    of every element of the sorted tail whose key is not smaller. *)
Section sorted.
Context {A : Type} (key : A → Z).

Fixpoint insort (x : A) (l : list A) : list A :=
  match l with
  | [] => [x]
  | y :: l' => if (key x <=? key y)%Z then x :: l else y :: insort x l'
  end.

Definition sorted (l : list A) : list A := foldr insort [] l.
End sorted.

(** [data['Request_id'].isin(request_ids)], row by row. *)
Definition isin (request_ids : list string) (row : Row.t) : Prop :=
  Row.Request_id row ∈ request_ids.

#[global] Instance isin_dec request_ids row : Decision (isin request_ids row).
Proof. unfold isin. apply _. Defined.

(** [data[data['Request_id'].isin(request_ids)]] *)
Definition select_routes (data : DataFrame) (request_ids : list string)
  : DataFrame :=
  filter (isin request_ids) data.

(** Descending order on the [Duration] column. *)
Definition dur_ge (a b : Row.t) : Prop := (Row.Duration b ≤ Row.Duration a)%Z.

(** What [sort_values(by='Duration', ascending=False)] promises whatever the
    sorting algorithm behind it: the same rows, descending by [Duration]. *)
Class SortKernel : Type := {
  sort_values_desc : DataFrame → DataFrame;
  sort_values_perm : ∀ rows, sort_values_desc rows ≡ₚ rows;
  sort_values_sorted : ∀ rows, Sorted dur_ge (sort_values_desc rows)
}.

(** The dictionary literal at the top of the loop body. *)
Definition new_allocation_info (route : Row.t) : Info.t :=
  {| Info.request_id := Row.Request_id route;
     Info.Route_id := Row.Route_id route;
     Info.DBS := Row.DBS route;
     Info.Distance := Row.Distance route;
     Info.Duration := Row.Duration route;
     Info.Allocated_LCV := "Pending" |}.

(** One iteration of the [for] loop; the state is the vehicle queue
    [lcvs_to_allocate] and the list [allocations]. *)
Definition loop_body (st : list string * list Info.t) (route : Row.t)
  : list string * list Info.t :=
  let '(lcvs_to_allocate, allocations) := st in
  let allocation_info := new_allocation_info route in
  match lcvs_to_allocate with
  | lcv :: rest =>
      (rest, allocations ++ [Info.set_Allocated_LCV allocation_info lcv])
  | [] => ([], allocations ++ [allocation_info])
  end.

Definition prioritize (lcv_assignments : Dict) : list string :=
  let selected_lcvs := keys lcv_assignments in
  sorted (lcv_key lcv_assignments) selected_lcvs.

Definition allocate_lcvs_to_routes_api `{SortKernel}
    (data : DataFrame) (request_ids : list string) (lcv_assignments : Dict)
  : list Info.t :=
  let selected_data := select_routes data request_ids in
  match selected_data with
  | [] => []
  | _ =>
      let prioritized_lcvs := prioritize lcv_assignments in
      let sorted_routes_desc := sort_values_desc selected_data in
      let lcvs_to_allocate := prioritized_lcvs in
      snd (foldl loop_body (lcvs_to_allocate, []) sorted_routes_desc)
  end.

(** ** The same function over a store of Python objects

    Python passes the dataset, the id list and the mapping by reference, and
    [lcvs_to_allocate = prioritized_lcvs] makes two names for one list, which
    [pop(0)] then shortens in place.  The store holds every object the
    function can reach; a reference is an index into it. *)

Inductive PyObj : Type :=
  | PyFrame (rows : DataFrame)
  | PyList (items : list string)
  | PyDict (d : Dict).

Abbreviation Store := (list PyObj) (only parsing).
Abbreviation Ref := nat (only parsing).

(** A computation reads and updates the store; [None] is a raised exception. *)
Definition M (A : Type) : Type := Store → option (A * Store).

#[global] Instance M_ret : MRet M := λ A x σ, Some (x, σ).
#[global] Instance M_bind : MBind M := λ A B f m σ,
  match m σ with
  | Some (x, σ') => f x σ'
  | None => None
  end.

(** A newly built object gets a reference no existing object has. *)
Definition alloc (o : PyObj) : M Ref := λ σ, Some (length σ, σ ++ [o]).

Definition read_frame (r : Ref) : M DataFrame := λ σ,
  match σ !! r with
  | Some (PyFrame rows) => Some (rows, σ)
  | _ => None
  end.

Definition read_list (r : Ref) : M (list string) := λ σ,
  match σ !! r with
  | Some (PyList items) => Some (items, σ)
  | _ => None
  end.

Definition read_dict (r : Ref) : M Dict := λ σ,
  match σ !! r with
  | Some (PyDict d) => Some (d, σ)
  | _ => None
  end.

(** [l.pop(0)]: removes the head of the list object in place and returns it;
    on an empty list Python raises [IndexError]. *)
Definition list_pop0 (r : Ref) : M string := λ σ,
  match σ !! r with
  | Some (PyList (x :: items)) => Some (x, <[r := PyList items]> σ)
  | _ => None
  end.

(** The [for] loop; [allocations] is the list under construction, which the
    function owns and returns. *)
Fixpoint for_routes (routes : list Row.t) (lcvs_to_allocate : Ref)
    (allocations : list Info.t) : M (list Info.t) :=
  match routes with
  | [] => mret allocations
  | route :: routes' =>
      let allocation_info := new_allocation_info route in
      queue ← read_list lcvs_to_allocate;
      allocation_info' ←
        match queue with
        | [] => mret allocation_info
        | _ :: _ =>
            lcv ← list_pop0 lcvs_to_allocate;
            mret (Info.set_Allocated_LCV allocation_info lcv)
        end;
      for_routes routes' lcvs_to_allocate (allocations ++ [allocation_info'])
  end.

Definition allocate_lcvs_to_routes_api_st `{SortKernel}
    (data request_ids lcv_assignments : Ref) : M (list Info.t) :=
  df ← read_frame data;
  ids ← read_list request_ids;
  selected_data ← alloc (PyFrame (select_routes df ids));
  selected_rows ← read_frame selected_data;
  match selected_rows with
  | [] => mret []
  | _ =>
      assignments ← read_dict lcv_assignments;
      selected_lcvs ← alloc (PyList (keys assignments));
      lcvs ← read_list selected_lcvs;
      prioritized_lcvs ← alloc (PyList (sorted (lcv_key assignments) lcvs));
      sorted_routes_desc ← alloc (PyFrame (sort_values_desc selected_rows));
      let lcvs_to_allocate := prioritized_lcvs in
      routes ← read_frame sorted_routes_desc;
      for_routes routes lcvs_to_allocate []
  end.

(** ** The endpoint *)

(** What the caller gets: the returned list, the [HTTPException] the handler
    raised, or, when another exception leaves the handler, the name of that
    exception, which the server turns into its plain 500 answer. *)
Inductive Response : Type :=
  | Ok200 (body : list Info.t)
  | HTTPException (status_code : Z) (detail : string)
  | Uncaught (exception : string).

(** The value bound to [request_date]: a [datetime.date], or [NaT] when
    [pd.to_datetime] read the string as a missing timestamp ([NaT.date()] is
    [NaT]). *)
Inductive RequestDate : Type :=
  | OnDay (d : Date)
  | NaT.

#[global] Instance RequestDate_eq_dec : EqDecision RequestDate.
Proof. solve_decision. Defined.

(** How [pd.to_datetime(s).date()] ends: with a value, with [ValueError] (or
    a subclass of it), or with an exception of another class. *)
Inductive Parsed : Type :=
  | Returns (request_date : RequestDate)
  | RaisesValueError
  | RaisesOther (exception : string).

(** [df[(df['date_only'] == request_date) & (df['MGS'] == selected_mgs)]];
    a cell equals a date when it is that date, and no cell equals [NaT]. *)
Definition filter_date_mgs (df : DataFrame) (request_date : RequestDate)
    (mgs : string) : DataFrame :=
  filter (λ row,
            request_date = OnDay (Row.date_only row) ∧ Row.MGS row = mgs) df.

Section endpoint.
Context `{SortKernel}.

(** [pd.to_datetime(s).date()] on a string. *)
Variable to_datetime_date : string → Parsed.

(** The body of the handler below the [try] block, once [request_date] is
    bound. *)
Definition allocate_for_date (df : DataFrame) (request_date : RequestDate)
    (request : AllocationRequest) : Response :=
  let filtered_df :=
    filter_date_mgs df request_date (selected_mgs request) in
  match filtered_df with
  | [] =>
      HTTPException 404 "No data found for the selected date and MGS."
  | _ =>
      let allocation_result :=
        allocate_lcvs_to_routes_api filtered_df
          (selected_request_ids request)
          (lcv_stage_assignments request) in
      match allocation_result with
      | [] =>
          HTTPException 404
            "None of the selected request_ids were found in the dataset for the given date and MGS."
      | _ => Ok200 allocation_result
      end
  end.

(** [df] is the module-level dataset: [None] when [load_data] failed. *)
Definition create_allocation (df : option DataFrame)
    (request : AllocationRequest) : Response :=
  match df with
  | None =>
      HTTPException 500 "Data could not be loaded. API is non-operational."
  | Some df =>
      match to_datetime_date (selected_date request) with
      | RaisesValueError =>
          HTTPException 400 "Invalid date format. Please use YYYY-MM-DD."
      | RaisesOther exception => Uncaught exception
      | Returns request_date => allocate_for_date df request_date request
      end
  end.

Definition matches_date_mgs (request_date : Date) (mgs : string)
    (row : Row.t) : Prop :=
  Row.date_only row = request_date ∧ Row.MGS row = mgs.

(** The five outcomes, each with the condition under which the
    specification grants it.  The date string parses when
    [pd.to_datetime(s).date()] gives a calendar date. *)
Inductive outcome (df : option DataFrame) (request : AllocationRequest)
  : Response → Prop :=
  | backend_unavailable :
      df = None →
      outcome df request
        (HTTPException 500
           "Data could not be loaded. API is non-operational.")
  | invalid_date data :
      df = Some data →
      (∀ d, to_datetime_date (selected_date request) ≠ Returns (OnDay d)) →
      outcome df request
        (HTTPException 400 "Invalid date format. Please use YYYY-MM-DD.")
  | no_data_for_date_and_mgs data request_date :
      df = Some data →
      to_datetime_date (selected_date request)
      = Returns (OnDay request_date) →
      (∀ row, row ∈ data →
         ¬ matches_date_mgs request_date (selected_mgs request) row) →
      outcome df request
        (HTTPException 404 "No data found for the selected date and MGS.")
  | no_requested_id_matched data request_date :
      df = Some data →
      to_datetime_date (selected_date request)
      = Returns (OnDay request_date) →
      (∃ row, row ∈ data
         ∧ matches_date_mgs request_date (selected_mgs request) row) →
      (∀ row, row ∈ data →
         matches_date_mgs request_date (selected_mgs request) row →
         Row.Request_id row ∉ selected_request_ids request) →
      outcome df request
        (HTTPException 404
           "None of the selected request_ids were found in the dataset for the given date and MGS.")
  | success data request_date :
      df = Some data →
      to_datetime_date (selected_date request)
      = Returns (OnDay request_date) →
      (∃ row, row ∈ data
         ∧ matches_date_mgs request_date (selected_mgs request) row
         ∧ Row.Request_id row ∈ selected_request_ids request) →
      outcome df request
        (Ok200
           (allocate_lcvs_to_routes_api
              (filter_date_mgs data (OnDay request_date)
                 (selected_mgs request))
              (selected_request_ids request)
              (lcv_stage_assignments request))).
End endpoint.

#[global] Instance matches_date_mgs_dec request_date mgs row :
  Decision (matches_date_mgs request_date mgs row).
Proof. unfold matches_date_mgs. apply _. Defined.

(** ** Data loading *)

(** A timestamp as [pd.to_datetime] yields it: the calendar date and the time
    of day, in nanoseconds since midnight. *)
Definition Timestamp : Type := (Date * Z)%type.

(** [ts.date()], and [.dt.date] on a column: the time of day is dropped. *)
Definition dt_date (ts : Timestamp) : Date := ts.1.

(** One row of the sheet as [pd.read_excel] returns it; [create_date] holds
    whatever the cell held. *)
Module Sheet.
Record t (Cell : Type) : Type := mk {
  Request_id : string;
  Route_id : string;
  DBS : string;
  Distance : Z;
  Duration : Z;
  MGS : string;
  create_date : Cell
}.
Arguments mk {Cell}.
Arguments Request_id {Cell}.
Arguments Route_id {Cell}.
Arguments DBS {Cell}.
Arguments Distance {Cell}.
Arguments Duration {Cell}.
Arguments MGS {Cell}.
Arguments create_date {Cell}.
End Sheet.

(** What a library call can raise inside [load_data]'s [try]. *)
Inductive Raised : Type :=
  | FileNotFoundError
  | OtherException (e : string).

Definition DATA_FILE : string := "16 July, 2024.xlsx".

(** The row of [df] once [date_only] is set.  [df] keeps [create_date] as
    well; nothing reads it afterwards. *)
Definition with_date_only {Cell : Type} (raw : Sheet.t Cell) (d : Date)
  : Row.t :=
  {| Row.Request_id := Sheet.Request_id raw;
     Row.Route_id := Sheet.Route_id raw;
     Row.DBS := Sheet.DBS raw;
     Row.Distance := Sheet.Distance raw;
     Row.Duration := Sheet.Duration raw;
     Row.MGS := Sheet.MGS raw;
     Row.date_only := d |}.

Section load_data.
Context {Cell : Type}.

(** [pd.read_excel(file_path)]: the rows of the sheet, or the exception. *)
Variable read_excel : string → Raised + list (Sheet.t Cell).

(** [pd.to_datetime(column)]: one timestamp per cell, or the message of the
    exception raised when the column cannot be converted. *)
Variable to_datetime : list Cell → string + list Timestamp.

(** The function returns the frame or [None]; the second component is what
    it printed. *)
Definition load_data (file_path : string) : option DataFrame * list string :=
  match read_excel file_path with
  | inr df =>
      match to_datetime (Sheet.create_date <$> df) with
      | inr create_date =>
          (Some (zip_with with_date_only df (dt_date <$> create_date)), [])
      | inl e =>
          (None, ["An error occurred while loading data: " +:+ e])
      end
  | inl FileNotFoundError =>
      (None, ["Error: Data file not found at " +:+ file_path])
  | inl (OtherException e) =>
      (None, ["An error occurred while loading data: " +:+ e])
  end.

(** [df = load_data(DATA_FILE)], evaluated once at import. *)
Definition df : option DataFrame := (load_data DATA_FILE).1.
End load_data.

(** ** Vocabulary of the statements *)

(** Ascending order on a sort key. *)
Definition key_le {A : Type} (key : A → Z) (a b : A) : Prop :=
  (key a ≤ key b)%Z.

(** What the loop produces from a route list and a vehicle queue. *)
Fixpoint assign (routes : list Row.t) (queue : list string) : list Info.t :=
  match routes with
  | [] => []
  | route :: routes' =>
      match queue with
      | lcv :: queue' =>
          Info.set_Allocated_LCV (new_allocation_info route) lcv
          :: assign routes' queue'
      | [] => new_allocation_info route :: assign routes' []
      end
  end.

(** The five route columns an entry carries. *)
Definition route_columns (route : Row.t) : string * string * string * Z * Z :=
  (Row.Request_id route, Row.Route_id route, Row.DBS route,
   Row.Distance route, Row.Duration route).

Definition info_columns (info : Info.t) : string * string * string * Z * Z :=
  (Info.request_id info, Info.Route_id info, Info.DBS info,
   Info.Distance info, Info.Duration info).

(** Entries that carry a given request id. *)
Definition count_request (q : string) (allocations : list Info.t) : nat :=
  length (filter (λ info, Info.request_id info = q) allocations).

(** The status code a response is sent with. *)
Definition status_code (response : Response) : Z :=
  match response with
  | Ok200 _ => 200
  | HTTPException code _ => code
  | Uncaught _ => 500
  end.

(** Entries whose [Allocated_LCV] field holds a given string. *)
Definition count_lcv (lcv : string) (allocations : list Info.t) : nat :=
  length (filter (λ info, Info.Allocated_LCV info = lcv) allocations).

Definition count_eq (v : string) (l : list string) : nat :=
  length (filter (λ x, x = v) l).

(** A kernel keeps ties in dataset order when, for each duration, the rows of
    that duration come out in the order in which they went in. *)
Definition keeps_ties (K : SortKernel) : Prop :=
  ∀ rows d,
    filter (λ r, Row.Duration r = d) (@sort_values_desc K rows)
    = filter (λ r, Row.Duration r = d) rows.

(** The claim as the specification words it: every key of the mapping occurs
    in at most one entry's [Allocated_LCV] field, and an entry holding a
    vehicle of strictly lower rank is never after one holding a vehicle of
    higher rank. *)
Definition used_once_in_priority_order (K : SortKernel)
    (data : DataFrame) (request_ids : list string) (lcv_assignments : Dict)
  : Prop :=
  let allocations :=
    allocate_lcvs_to_routes_api data request_ids lcv_assignments in
  (∀ lcv, lcv ∈ keys lcv_assignments →
     (count_lcv lcv allocations ≤ 1)%nat)
  ∧ (∀ i j a b,
       allocations !! i = Some a → allocations !! j = Some b →
       Info.Allocated_LCV a ∈ keys lcv_assignments →
       Info.Allocated_LCV b ∈ keys lcv_assignments →
       (lcv_key lcv_assignments (Info.Allocated_LCV a)
        < lcv_key lcv_assignments (Info.Allocated_LCV b))%Z →
       (i ≤ j)%nat).

(** The claim as the specification words it: with fewer vehicles than
    selected routes, the entries whose field is ["Pending"] are as many as the
    routes exceed the vehicles, and they are the trailing entries. *)
Definition pending_fill (K : SortKernel)
    (data : DataFrame) (request_ids : list string) (lcv_assignments : Dict)
  : Prop :=
  let selected_data := select_routes data request_ids in
  let allocations :=
    allocate_lcvs_to_routes_api data request_ids lcv_assignments in
  (length lcv_assignments < length selected_data)%nat →
  count_lcv "Pending" allocations
  = (length selected_data - length lcv_assignments)%nat
  ∧ (∀ i info,
       allocations !! i = Some info →
       Info.Allocated_LCV info = "Pending"
       ↔ (length lcv_assignments ≤ i)%nat).

(** The claim as the specification words it: for each duration, the selected
    routes of that duration appear in the output in their dataset order. *)
Definition ties_in_dataset_order (K : SortKernel)
    (data : DataFrame) (request_ids : list string) (lcv_assignments : Dict)
  : Prop :=
  ∀ d : Z,
    filter (λ c : string * string * string * Z * Z, c.2 = d)
      (info_columns
         <$> allocate_lcvs_to_routes_api data request_ids lcv_assignments)
    = filter (λ c : string * string * string * Z * Z, c.2 = d)
        (route_columns <$> select_routes data request_ids).

(** ** Two ways to sort descending

    [sort_desc_stable] is what pandas does when asked for a stable sort in
    descending order: reverse the rows, sort ascending with a stable sort,
    reverse the result.  [sort_desc_flipped] sorts ascending and reverses the
    result; it is descending as well and differs on ties only. *)

Definition sort_desc_stable (rows : DataFrame) : DataFrame :=
  reverse (sorted Row.Duration (reverse rows)).

Definition sort_desc_flipped (rows : DataFrame) : DataFrame :=
  reverse (sorted Row.Duration rows).

(** ** The default sorting algorithm

    [sort_values] is called without [kind], so pandas sorts with
    [kind='quicksort']: numpy's argsort by introsort.  The model follows the
    scalar routine of numpy's [npysort]: median of three and a two-sided
    partition while a range has more than 17 elements, insertion sort on a
    range of at most 17, heapsort once the depth limit is used up.  [v] holds
    the keys and the array [a] holds indices into [v]; a pointer is a position
    in [a]. *)
Module npysort.
Section argsort.
Variable v : list Z.

(** [v[i]] and [*p]. *)
Definition val (i : nat) : Z := default 0%Z (v !! i).
Definition at_ (a : list nat) (p : nat) : nat := default 0 (a !! p).
Definition INTP_SWAP (a : list nat) (p q : nat) : list nat :=
  <[q := at_ a p]> (<[p := at_ a q]> a).
Definition LT (a : list nat) (p q : nat) : bool :=
  (val (at_ a p) <? val (at_ a q))%Z.

(** [do ++pi; while (v[*pi] < vp);] *)
Fixpoint scan_up (fuel : nat) (a : list nat) (vp : Z) (pi : nat) : nat :=
  match fuel with
  | 0 => pi
  | S fuel =>
      let pi := S pi in
      if (val (at_ a pi) <? vp)%Z then scan_up fuel a vp pi else pi
  end.

(** [do --pj; while (vp < v[*pj]);] *)
Fixpoint scan_down (fuel : nat) (a : list nat) (vp : Z) (pj : nat) : nat :=
  match fuel with
  | 0 => pj
  | S fuel =>
      let pj := Nat.pred pj in
      if (vp <? val (at_ a pj))%Z then scan_down fuel a vp pj else pj
  end.

Fixpoint partition_loop (fuel : nat) (a : list nat) (vp : Z) (pi pj : nat)
  : list nat * nat :=
  match fuel with
  | 0 => (a, pi)
  | S fuel =>
      let pi := scan_up (length a) a vp pi in
      let pj := scan_down (length a) a vp pj in
      if (pj <=? pi)%nat then (a, pi)
      else partition_loop fuel (INTP_SWAP a pi pj) vp pi pj
  end.

(** One partition of the range from [pl] to [pr]; returns the array and the
    final place [pi] of the pivot. *)
Definition partition (a : list nat) (pl pr : nat) : list nat * nat :=
  let pm := pl + Nat.shiftr (pr - pl) 1 in
  let a := if LT a pm pl then INTP_SWAP a pm pl else a in
  let a := if LT a pr pm then INTP_SWAP a pr pm else a in
  let a := if LT a pm pl then INTP_SWAP a pm pl else a in
  let vp := val (at_ a pm) in
  let pi := pl in
  let pj := pr - 1 in
  let a := INTP_SWAP a pm pj in
  let '(a, pi) := partition_loop (length a) a vp pi pj in
  let pk := pr - 1 in
  (INTP_SWAP a pi pk, pi).

(** [while (pj > pl && vp < v[*pk]) *pj-- = *pk--;] with [pk = pj - 1]. *)
Fixpoint shift_up (fuel : nat) (a : list nat) (pl : nat) (vp : Z) (pj : nat)
  : list nat * nat :=
  match fuel with
  | 0 => (a, pj)
  | S fuel =>
      if (pl <? pj)%nat && (vp <? val (at_ a (pj - 1)))%Z
      then shift_up fuel (<[pj := at_ a (pj - 1)]> a) pl vp (pj - 1)
      else (a, pj)
  end.

Definition insertion_sort (a : list nat) (pl pr : nat) : list nat :=
  foldl (λ a pi,
           let vi := at_ a pi in
           let vp := val vi in
           let '(a, pj) := shift_up (length a) a pl vp pi in
           <[pj := vi]> a)
        a (seq (pl + 1) (pr - pl)).

(** Heapsort on the [n] elements from position [base], indexed from 1. *)
Section heap.
Variable base : nat.
Definition hget (a : list nat) (k : nat) : nat := at_ a (base + k - 1).
Definition hset (a : list nat) (k : nat) (x : nat) : list nat :=
  <[base + k - 1 := x]> a.

Fixpoint sift (fuel : nat) (a : list nat) (n tmp i j : nat)
  : list nat * nat :=
  match fuel with
  | 0 => (a, i)
  | S fuel =>
      if (j <=? n)%nat then
        let j := if (j <? n)%nat && (val (hget a j) <? val (hget a (j + 1)))%Z
                 then j + 1 else j in
        if (val tmp <? val (hget a j))%Z
        then sift fuel (hset a i (hget a j)) n tmp j (j + j)
        else (a, i)
      else (a, i)
  end.

Definition heapify (a : list nat) (n : nat) : list nat :=
  foldl (λ a l,
           let tmp := hget a l in
           let '(a, i) := sift n a n tmp l (l + l) in
           hset a i tmp)
        a (reverse (seq 1 (Nat.shiftr n 1))).

Definition extract (a : list nat) (n : nat) : list nat :=
  foldl (λ a n,
           let tmp := hget a n in
           let a := hset a n (hget a 1) in
           let n := n - 1 in
           let '(a, i) := sift (S n) a n tmp 1 2 in
           hset a i tmp)
        a (reverse (seq 2 (n - 1))).

Definition aheapsort (a : list nat) (n : nat) : list nat :=
  extract (heapify a n) n.
End heap.

Definition SMALL_QUICKSORT : nat := 16.

(** [while ((pr - pl) > SMALL_QUICKSORT)]: partition, push the larger part
    with the new depth, go on with the smaller. *)
Fixpoint partition_while (fuel : nat) (a : list nat) (pl pr : nat)
    (cdepth : Z) (stack : list (nat * nat * Z))
  : list nat * nat * nat * list (nat * nat * Z) :=
  match fuel with
  | 0 => (a, pl, pr, stack)
  | S fuel =>
      if (SMALL_QUICKSORT <? pr - pl)%nat then
        let '(a, pi) := partition a pl pr in
        let cdepth := (cdepth - 1)%Z in
        if (pi - pl <? pr - pi)%nat
        then partition_while fuel a pl (pi - 1) cdepth
               ((pi + 1, pr, cdepth) :: stack)
        else partition_while fuel a (pi + 1) pr cdepth
               ((pl, pi - 1, cdepth) :: stack)
      else (a, pl, pr, stack)
  end.

(** The outer loop: sort the current range, then pop the next one. *)
Fixpoint sort_loop (fuel : nat) (a : list nat) (pl pr : nat) (cdepth : Z)
    (stack : list (nat * nat * Z)) : list nat :=
  match fuel with
  | 0 => a
  | S fuel =>
      let '(a, stack) :=
        if (cdepth <? 0)%Z
        then (aheapsort pl a (pr - pl + 1), stack)
        else
          let '(a, pl, pr, stack) :=
            partition_while (length a) a pl pr cdepth stack in
          (insertion_sort a pl pr, stack) in
      match stack with
      | [] => a
      | (pl, pr, cdepth) :: stack => sort_loop fuel a pl pr cdepth stack
      end
  end.

(** [np.argsort(v, kind='quicksort')] *)
Definition aquicksort : list nat :=
  let num := length v in
  let tosort := seq 0 num in
  match num with
  | 0 => tosort
  | _ =>
      sort_loop (S num) tosort 0 (num - 1) (2 * Z.of_nat (Nat.log2 num)) []
  end.
End argsort.
End npysort.

(** pandas' [nargsort(items, kind='quicksort', ascending=False)] on a column
    without missing values: reverse, argsort, map back, reverse. *)
Definition nargsort_desc (items : list Z) : list nat :=
  let idx := seq 0 (length items) in
  let non_nans := reverse items in
  let non_nan_idx := reverse idx in
  let indexer := (λ k, default 0 (non_nan_idx !! k))
                   <$> npysort.aquicksort non_nans in
  reverse indexer.

(** [rows.sort_values(by='Duration', ascending=False)] with the default
    [kind]. *)
Definition sort_values_quicksort (rows : DataFrame) : DataFrame :=
  omap (λ i, rows !! i) (nargsort_desc (Row.Duration <$> rows)).

(** The allocator with the sort it calls passed in as a function. *)
Definition allocate_sorting_with (sort_values : DataFrame → DataFrame)
    (data : DataFrame) (request_ids : list string) (lcv_assignments : Dict)
  : list Info.t :=
  let selected_data := select_routes data request_ids in
  match selected_data with
  | [] => []
  | _ =>
      let prioritized_lcvs := prioritize lcv_assignments in
      let sorted_routes_desc := sort_values selected_data in
      let lcvs_to_allocate := prioritized_lcvs in
      snd (foldl loop_body (lcvs_to_allocate, []) sorted_routes_desc)
  end.

(** The claim on ties, for the allocator over a given sort. *)
Definition ties_in_dataset_order_with (sort_values : DataFrame → DataFrame)
    (data : DataFrame) (request_ids : list string) (lcv_assignments : Dict)
  : Prop :=
  ∀ d : Z,
    filter (λ c : string * string * string * Z * Z, c.2 = d)
      (info_columns
         <$> allocate_sorting_with sort_values data request_ids
               lcv_assignments)
    = filter (λ c : string * string * string * Z * Z, c.2 = d)
        (route_columns <$> select_routes data request_ids).

(** ** Sample data *)

Module Sample.
Definition day : Date := (2024, 7, 16)%Z.

Definition route_long : Row.t :=
  Row.mk "REQ-1" "R-A" "DBS-1" 40 90 "MGS-1" day.
Definition route_short : Row.t :=
  Row.mk "REQ-2" "R-B" "DBS-2" 25 50 "MGS-1" day.
Definition route_tie : Row.t :=
  Row.mk "REQ-3" "R-C" "DBS-3" 30 90 "MGS-1" day.
Definition route_elsewhere : Row.t :=
  Row.mk "REQ-4" "R-D" "DBS-4" 12 70 "MGS-2" day.

Definition dataset : DataFrame :=
  [route_short; route_long; route_tie; route_elsewhere].

Definition two_routes : DataFrame := [route_short; route_long].
Definition tied_routes : DataFrame := [route_long; route_tie].

Definition all_ids : list string := ["REQ-1"; "REQ-2"; "REQ-3"; "REQ-4"].

Definition fleet : Dict :=
  [("LCV-1", STAGE1); ("LCV-2", STAGE3); ("LCV-9", "Stage 9");
   ("LCV-3", STAGE2); ("LCV-8", "Maintenance")].

Definition small_fleet : Dict := [("LCV-1", STAGE1); ("LCV-2", STAGE3)].

(** A mapping whose only vehicle is called like the sentinel. *)
Definition fleet_pending : Dict := [("Pending", STAGE1)].

(** Eighteen routes of one day and MGS with four durations among them. *)
Definition route (id : string) (duration : Z) : Row.t :=
  Row.mk id ("R-" +:+ id) "DBS-1" 10 duration "MGS-1" day.

Definition eighteen_routes : DataFrame :=
  [route "REQ-01" 50; route "REQ-02" 90; route "REQ-03" 90;
   route "REQ-04" 70; route "REQ-05" 30; route "REQ-06" 90;
   route "REQ-07" 70; route "REQ-08" 50; route "REQ-09" 90;
   route "REQ-10" 30; route "REQ-11" 70; route "REQ-12" 90;
   route "REQ-13" 50; route "REQ-14" 70; route "REQ-15" 90;
   route "REQ-16" 30; route "REQ-17" 50; route "REQ-18" 70].

Definition eighteen_ids : list string := Row.Request_id <$> eighteen_routes.

(** The two routes of the specification's scenarios. *)
Definition r1 : Row.t := Row.mk "r1" "route-1" "D" 10 50 "M" day.
Definition r2 : Row.t := Row.mk "r2" "route-2" "D" 10 90 "M" day.

(** How [pd.to_datetime(s).date()] ends on a few strings: three spellings
    of 16 July 2024, the missing timestamp, a string on which the parser
    raises [NotImplementedError], and one it rejects with [ValueError].  The
    table stands for the parser on these strings only. *)
Definition to_datetime_date (s : string) : Parsed :=
  if decide (s ∈ ["2024-07-16"; "2024/07/16"; "July 16, 2024"])
  then Returns (OnDay day)
  else if decide (s = "NaT") then Returns NaT
  else if decide (s = "-1") then RaisesOther "NotImplementedError"
  else RaisesValueError.

Definition iso : AllocationRequest :=
  {| selected_date := "2024-07-16";
     selected_mgs := "MGS-1";
     selected_request_ids := ["REQ-1"; "REQ-2"];
     lcv_stage_assignments := small_fleet |}.

Definition slashes : AllocationRequest :=
  {| selected_date := "2024/07/16";
     selected_mgs := "MGS-1";
     selected_request_ids := ["REQ-1"; "REQ-2"];
     lcv_stage_assignments := small_fleet |}.

Definition minus_one : AllocationRequest :=
  {| selected_date := "-1";
     selected_mgs := "MGS-1";
     selected_request_ids := ["REQ-1"; "REQ-2"];
     lcv_stage_assignments := small_fleet |}.

Definition missing_date : AllocationRequest :=
  {| selected_date := "NaT";
     selected_mgs := "MGS-1";
     selected_request_ids := ["REQ-1"; "REQ-2"];
     lcv_stage_assignments := small_fleet |}.
End Sample.

(** A sheet whose [create_date] cells are timestamps already, as Excel date
    cells are read; two rows fall on the same day at different times. *)
Module SampleSheet.
Definition morning : Timestamp := (Sample.day, 30600000000000)%Z.
Definition evening : Timestamp := (Sample.day, 77400000000000)%Z.
Definition next_day : Timestamp := ((2024, 7, 17), 0)%Z.

Definition sheet : list (Sheet.t Timestamp) :=
  [Sheet.mk "REQ-1" "R-A" "DBS-1" 40 90 "MGS-1" morning;
   Sheet.mk "REQ-2" "R-B" "DBS-2" 25 50 "MGS-1" evening;
   Sheet.mk "REQ-3" "R-C" "DBS-3" 30 90 "MGS-1" next_day].

(** Only [DATA_FILE] exists. *)
Definition read_excel (file_path : string)
  : Raised + list (Sheet.t Timestamp) :=
  if decide (file_path = DATA_FILE) then inr sheet else inl FileNotFoundError.

(** No file at all. *)
Definition read_excel_missing (file_path : string)
  : Raised + list (Sheet.t Timestamp) :=
  inl FileNotFoundError.

(** Timestamps convert to themselves. *)
Definition to_datetime (column : list Timestamp) : string + list Timestamp :=
  inr column.
End SampleSheet.

Ltac by_computation := apply (bool_decide_unpack _); vm_compute; exact I.

(** ** Properties of [sorted] *)

Section sorted_facts.
Context {A : Type} (key : A → Z).

Lemma insort_perm x l : insort key x l ≡ₚ x :: l.
Proof.
  induction l as [|y l IH]; simpl; [done|].
  destruct (key x <=? key y)%Z; [done|].
  rewrite IH. apply Permutation_swap.
Qed.

Lemma sorted_perm l : sorted key l ≡ₚ l.
Proof.
  induction l as [|x l IH]; simpl; [done|].
  unfold sorted in *. simpl. by rewrite insort_perm, IH.
Qed.

Lemma insort_HdRel a x l :
  key_le key a x → HdRel (key_le key) a l →
  HdRel (key_le key) a (insort key x l).
Proof.
  intros Hax Hl. destruct l as [|y l]; simpl.
  - by constructor.
  - destruct (key x <=? key y)%Z; constructor; [done|].
    by inversion Hl.
Qed.

Lemma insort_Sorted x l :
  Sorted (key_le key) l → Sorted (key_le key) (insort key x l).
Proof.
  induction 1 as [|y l Hl IH Hy]; simpl.
  - by repeat constructor.
  - destruct (Z.leb_spec (key x) (key y)) as [Hle|Hlt].
    + constructor; [by constructor|]. by constructor.
    + constructor; [done|]. apply insort_HdRel; [|done].
      unfold key_le. lia.
Qed.

Lemma sorted_Sorted l : Sorted (key_le key) (sorted key l).
Proof.
  induction l as [|x l IH]; [constructor|].
  unfold sorted in *. simpl. by apply insort_Sorted.
Qed.

(** Stability: the elements of any one key come out in the order in which
    they went in. *)
Lemma insort_filter k x l :
  filter (λ y, key y = k) (insort key x l)
  = filter (λ y, key y = k) (x :: l).
Proof.
  induction l as [|y l IH]; simpl; [done|].
  destruct (Z.leb_spec (key x) (key y)) as [Hle|Hlt]; [done|].
  rewrite !filter_cons in *.
  destruct (decide (key y = k)), (decide (key x = k)); simplify_eq; try lia;
    by rewrite IH.
Qed.

Lemma sorted_stable k l :
  filter (λ y, key y = k) (sorted key l) = filter (λ y, key y = k) l.
Proof.
  induction l as [|x l IH]; [done|].
  unfold sorted in *. simpl. rewrite insort_filter, !filter_cons.
  by rewrite IH.
Qed.

Lemma sorted_length l : length (sorted key l) = length l.
Proof. by rewrite sorted_perm. Qed.
End sorted_facts.

(** ** Two sort kernels *)

Lemma sort_desc_stable_perm rows : sort_desc_stable rows ≡ₚ rows.
Proof.
  unfold sort_desc_stable.
  by rewrite reverse_Permutation, sorted_perm, reverse_Permutation.
Qed.

Lemma sort_desc_stable_sorted rows : Sorted dur_ge (sort_desc_stable rows).
Proof.
  unfold sort_desc_stable.
  exact (Sorted_reverse _ _ (sorted_Sorted Row.Duration (reverse rows))).
Qed.

Lemma sort_desc_flipped_perm rows : sort_desc_flipped rows ≡ₚ rows.
Proof.
  unfold sort_desc_flipped. by rewrite reverse_Permutation, sorted_perm.
Qed.

Lemma sort_desc_flipped_sorted rows : Sorted dur_ge (sort_desc_flipped rows).
Proof.
  unfold sort_desc_flipped.
  exact (Sorted_reverse _ _ (sorted_Sorted Row.Duration rows)).
Qed.

Definition kind_stable : SortKernel :=
  {| sort_values_desc := sort_desc_stable;
     sort_values_perm := sort_desc_stable_perm;
     sort_values_sorted := sort_desc_stable_sorted |}.

Definition ascending_flipped : SortKernel :=
  {| sort_values_desc := sort_desc_flipped;
     sort_values_perm := sort_desc_flipped_perm;
     sort_values_sorted := sort_desc_flipped_sorted |}.

Lemma filter_reverse {A} (P : A → Prop) `{∀ x, Decision (P x)}
    (l : list A) :
  filter P (reverse l) = reverse (filter P l).
Proof.
  induction l as [|x l IH]; [done|].
  rewrite reverse_cons, filter_app, IH.
  destruct (decide (P x)).
  - by rewrite !filter_cons_True, filter_nil, reverse_cons by done.
  - rewrite !filter_cons_False, filter_nil by done. apply app_nil_r.
Qed.

Lemma kind_stable_keeps_ties : keeps_ties kind_stable.
Proof.
  intros rows d. simpl. unfold sort_desc_stable.
  rewrite filter_reverse.
  rewrite (sorted_stable Row.Duration d), filter_reverse.
  apply reverse_involutive.
Qed.

(** ** The loop, unfolded *)

Lemma foldl_loop_body routes : ∀ queue allocations,
  snd (foldl loop_body (queue, allocations) routes)
  = allocations ++ assign routes queue.
Proof.
  induction routes as [|route routes IH]; intros queue allocations; simpl.
  - by rewrite app_nil_r.
  - destruct queue as [|lcv queue]; rewrite IH, <- app_assoc; done.
Qed.

Lemma assign_length routes : ∀ queue,
  length (assign routes queue) = length routes.
Proof.
  induction routes as [|r routes IH]; intros [|lcv queue]; simpl; auto.
Qed.

Lemma assign_columns routes : ∀ queue,
  info_columns <$> assign routes queue = route_columns <$> routes.
Proof.
  induction routes as [|r routes IH]; intros [|lcv queue]; simpl;
    rewrite ?IH; done.
Qed.

Lemma assign_nil_queue routes :
  Info.Allocated_LCV <$> assign routes []
  = replicate (length routes) "Pending".
Proof.
  induction routes as [|r routes IH]; [done|].
  change (assign (r :: routes) []) with
    (new_allocation_info r :: assign routes []).
  by rewrite fmap_cons, IH.
Qed.

Lemma assign_lcvs routes : ∀ queue,
  Info.Allocated_LCV <$> assign routes queue
  = take (length routes) queue
    ++ replicate (length routes - length queue) "Pending".
Proof.
  induction routes as [|r routes IH]; intros [|lcv queue]; try done.
  - change (assign (r :: routes) []) with
      (new_allocation_info r :: assign routes []).
    rewrite fmap_cons, assign_nil_queue. done.
  - change (assign (r :: routes) (lcv :: queue)) with
      (Info.set_Allocated_LCV (new_allocation_info r) lcv
       :: assign routes queue).
    by rewrite fmap_cons, IH.
Qed.

(** ** The allocator in closed form *)

Section allocator_facts.
Context `{K : SortKernel}.
Implicit Types (data : DataFrame) (request_ids : list string).
Implicit Types (lcv_assignments : Dict).

Lemma sort_values_nil : sort_values_desc [] = [].
Proof. apply Permutation_nil_r, sort_values_perm. Qed.

Lemma sort_values_length rows :
  length (sort_values_desc rows) = length rows.
Proof. by rewrite sort_values_perm. Qed.

Lemma allocate_assign data request_ids lcv_assignments :
  allocate_lcvs_to_routes_api data request_ids lcv_assignments
  = assign (sort_values_desc (select_routes data request_ids))
           (prioritize lcv_assignments).
Proof.
  unfold allocate_lcvs_to_routes_api.
  destruct (select_routes data request_ids) as [|r rows] eqn:E.
  - by rewrite sort_values_nil.
  - by rewrite foldl_loop_body.
Qed.

Lemma allocate_length data request_ids lcv_assignments :
  length (allocate_lcvs_to_routes_api data request_ids lcv_assignments)
  = length (select_routes data request_ids).
Proof. by rewrite allocate_assign, assign_length, sort_values_length. Qed.

Lemma allocate_columns data request_ids lcv_assignments :
  info_columns
    <$> allocate_lcvs_to_routes_api data request_ids lcv_assignments
  = route_columns <$> sort_values_desc (select_routes data request_ids).
Proof. by rewrite allocate_assign, assign_columns. Qed.

Lemma prioritize_length lcv_assignments :
  length (prioritize lcv_assignments) = length lcv_assignments.
Proof.
  unfold prioritize, keys. by rewrite sorted_length, length_fmap.
Qed.

Lemma allocate_lcvs data request_ids lcv_assignments :
  Info.Allocated_LCV
    <$> allocate_lcvs_to_routes_api data request_ids lcv_assignments
  = take (length (select_routes data request_ids))
         (prioritize lcv_assignments)
    ++ replicate (length (select_routes data request_ids)
                  - length lcv_assignments) "Pending".
Proof.
  rewrite allocate_assign, assign_lcvs, sort_values_length.
  by rewrite prioritize_length.
Qed.
(** The entries filled from the queue are the leading ones. *)
Lemma allocate_lcvs_take data request_ids lcv_assignments :
  take (length lcv_assignments)
       (Info.Allocated_LCV
          <$> allocate_lcvs_to_routes_api data request_ids lcv_assignments)
  = take (length (select_routes data request_ids))
         (prioritize lcv_assignments).
Proof.
  rewrite allocate_lcvs.
  pose proof (prioritize_length lcv_assignments) as Hlen.
  set (n := length (select_routes data request_ids)) in *.
  set (P := prioritize lcv_assignments) in *.
  destruct (decide (n ≤ length lcv_assignments)%nat) as [Hle|Hgt].
  - replace (n - length lcv_assignments) with 0 by lia.
    simpl. rewrite app_nil_r. rewrite take_take. f_equal. lia.
  - rewrite (take_ge P n) by lia.
    rewrite take_app_length' by lia. done.
Qed.
End allocator_facts.

(** ** Stage ranks and the vehicle order *)

Lemma stage_priority_lookup (s : string) :
  stage_priority !! s =
    if decide (s = "Stage 3 (Filled – Waiting Area/Moving to DBS)")
    then Some 1%Z
    else if decide (s = "Stage 2 (Filling – Safe Zone)") then Some 2%Z
    else if decide (s = "Stage 1 (Empty - Waiting Area)") then Some 3%Z
    else None.
Proof.
  unfold stage_priority, STAGE3, STAGE2, STAGE1.
  rewrite !lookup_insert, lookup_singleton.
  repeat case_decide; simplify_eq; done.
Qed.

(** C1.  The sort key of a vehicle is the rank of the stage string the
    mapping holds for it: 1 for the Stage 3 string, 2 for the Stage 2 string,
    3 for the Stage 1 string and 99 for any other; the prioritized vehicle
    list is the mapping's keys reordered ascending by that rank, the vehicles
    of any one rank in the mapping's insertion order; and the allocator hands
    the vehicles out in exactly that order. *)
Theorem stage_rank_stable_order (lcv_assignments : Dict) :
  (∀ lcv,
     lcv_key lcv_assignments lcv =
       match dict_get lcv_assignments lcv with
       | Some stage =>
           if decide (stage = "Stage 3 (Filled – Waiting Area/Moving to DBS)")
           then 1
           else if decide (stage = "Stage 2 (Filling – Safe Zone)") then 2
           else if decide (stage = "Stage 1 (Empty - Waiting Area)") then 3
           else 99
       | None => 99
       end%Z)
  ∧ prioritize lcv_assignments ≡ₚ keys lcv_assignments
  ∧ Sorted (key_le (lcv_key lcv_assignments)) (prioritize lcv_assignments)
  ∧ (∀ rank,
       filter (λ lcv, lcv_key lcv_assignments lcv = rank)
              (prioritize lcv_assignments)
       = filter (λ lcv, lcv_key lcv_assignments lcv = rank)
                (keys lcv_assignments))
  ∧ (∀ (K : SortKernel) data request_ids,
       take (length lcv_assignments)
            (Info.Allocated_LCV
               <$> allocate_lcvs_to_routes_api data request_ids
                     lcv_assignments)
       = take (length (select_routes data request_ids))
              (prioritize lcv_assignments)).
Proof.
  split_and!.
  - intros lcv. unfold lcv_key, stage_priority_get.
    destruct (dict_get lcv_assignments lcv) as [stage|]; [|done].
    rewrite stage_priority_lookup. by repeat case_decide.
  - apply sorted_perm.
  - apply sorted_Sorted.
  - intros rank. apply sorted_stable.
  - intros K data request_ids. apply allocate_lcvs_take.
Qed.

(** ** Counting entries by their [Allocated_LCV] field *)

Lemma count_lcv_fmap lcv allocations :
  count_lcv lcv allocations
  = count_eq lcv (Info.Allocated_LCV <$> allocations).
Proof.
  unfold count_lcv, count_eq.
  induction allocations as [|info l IH]; [done|].
  rewrite fmap_cons, !filter_cons.
  destruct (decide (Info.Allocated_LCV info = lcv)); simpl; by rewrite IH.
Qed.

Lemma count_eq_app v l1 l2 :
  count_eq v (l1 ++ l2) = count_eq v l1 + count_eq v l2.
Proof. unfold count_eq. by rewrite filter_app, length_app. Qed.

Lemma count_eq_replicate v n : count_eq v (replicate n v) = n.
Proof.
  unfold count_eq. induction n as [|n IH]; [done|].
  simpl. rewrite filter_cons_True by done. simpl. by rewrite IH.
Qed.

Lemma count_eq_replicate_ne v w n : w ≠ v → count_eq v (replicate n w) = 0.
Proof.
  intros Hne. unfold count_eq. induction n as [|n IH]; [done|].
  simpl. by rewrite filter_cons_False.
Qed.

Lemma count_eq_not_elem v l : v ∉ l → count_eq v l = 0.
Proof.
  unfold count_eq. induction l as [|x l IH]; [done|].
  rewrite not_elem_of_cons. intros [Hne Hl].
  rewrite filter_cons_False by done. auto.
Qed.

Lemma count_eq_elem v l : v ∈ l → (0 < count_eq v l)%nat.
Proof.
  unfold count_eq. induction 1 as [x l|x y l Hin IH].
  - rewrite filter_cons_True by done. simpl. lia.
  - rewrite filter_cons. destruct (decide (y = x)); simpl; lia.
Qed.

Lemma count_eq_NoDup v l : NoDup l → (count_eq v l ≤ 1)%nat.
Proof.
  induction 1 as [|x l Hx Hl IH]; [unfold count_eq; simpl; lia|].
  unfold count_eq in *. rewrite filter_cons.
  destruct (decide (x = v)) as [->|]; [|done].
  simpl. fold (count_eq v l). rewrite count_eq_not_elem; [lia|done].
Qed.

Lemma StronglySorted_lookup {A} (R : relation A) l : ∀ i j a b,
  StronglySorted R l → l !! i = Some a → l !! j = Some b → (i < j)%nat →
  R a b.
Proof.
  induction l as [|x l IH]; intros i j a b Hs Hi Hj Hij; [done|].
  apply StronglySorted_cons in Hs as [Hall Hs].
  destruct j as [|j]; [lia|]. simpl in Hj.
  destruct i as [|i]; simpl in Hi.
  - simplify_eq. rewrite Forall_forall in Hall.
    apply Hall. by eapply list_elem_of_lookup_2.
  - eapply (IH i j); eauto with lia.
Qed.

#[global] Instance key_le_trans {A} (key : A → Z) : Transitive (key_le key).
Proof. intros a b c. unfold key_le. lia. Qed.

Lemma prioritize_NoDup (lcv_assignments : Dict) :
  NoDup (keys lcv_assignments) → NoDup (prioritize lcv_assignments).
Proof. intros Hnd. unfold prioritize. by rewrite sorted_perm. Qed.

Lemma prioritize_elem_of (lcv_assignments : Dict) lcv :
  lcv ∈ prioritize lcv_assignments ↔ lcv ∈ keys lcv_assignments.
Proof. unfold prioritize. by rewrite sorted_perm. Qed.

Lemma prioritize_rank_order (lcv_assignments : Dict) i j a b :
  prioritize lcv_assignments !! i = Some a →
  prioritize lcv_assignments !! j = Some b →
  (lcv_key lcv_assignments a < lcv_key lcv_assignments b)%Z →
  (i < j)%nat.
Proof.
  intros Hi Hj Hlt.
  destruct (decide (i < j)%nat) as [|Hge]; [done|].
  destruct (decide (i = j)) as [->|Hne]; [simplify_eq; lia|].
  pose proof (Sorted_StronglySorted _ _
    (sorted_Sorted (lcv_key lcv_assignments) (keys lcv_assignments))) as Hs.
  pose proof (StronglySorted_lookup _ _ j i b a Hs Hj Hi) as Hle.
  unfold key_le in Hle. lia.
Qed.

Lemma assign_durations routes : ∀ queue,
  Info.Duration <$> assign routes queue = Row.Duration <$> routes.
Proof.
  intros queue.
  change Info.Duration with ((λ c : string * string * string * Z * Z, c.2)
                              ∘ info_columns).
  change Row.Duration with ((λ c : string * string * string * Z * Z, c.2)
                             ∘ route_columns).
  by rewrite !list_fmap_compose, assign_columns.
Qed.

Lemma assign_lookup routes : ∀ queue i,
  assign routes queue !! i
  = (λ route,
       match queue !! i with
       | Some lcv => Info.set_Allocated_LCV (new_allocation_info route) lcv
       | None => new_allocation_info route
       end) <$> routes !! i.
Proof.
  induction routes as [|r routes IH]; intros queue i; [done|].
  destruct queue as [|lcv queue], i as [|i]; simpl; done.
Qed.

(** ** Length and route preservation *)

(** C3.  The output has one entry per selected route: as many entries as
    routes were selected, the route columns of the entries are those of the
    selected routes up to order (nothing dropped, nothing duplicated), and the
    output is empty exactly when no route was selected. *)
Theorem one_entry_per_selected_route `{K : SortKernel}
    (data : DataFrame) (request_ids : list string) (lcv_assignments : Dict) :
  let selected_data := select_routes data request_ids in
  let allocations :=
    allocate_lcvs_to_routes_api data request_ids lcv_assignments in
  length allocations = length selected_data
  ∧ info_columns <$> allocations ≡ₚ route_columns <$> selected_data
  ∧ (selected_data = [] ↔ allocations = []).
Proof.
  simpl. split_and!.
  - apply allocate_length.
  - rewrite allocate_columns. by rewrite sort_values_perm.
  - pose proof (allocate_length data request_ids lcv_assignments) as Hlen.
    split; intros Hnil; apply length_zero_iff_nil;
      apply (f_equal length) in Hnil; simpl in Hnil; lia.
Qed.

(** Scenario 3 of the specification: no route, one vehicle. *)
Example no_route_no_entry `{K : SortKernel} :
  allocate_lcvs_to_routes_api [] ["r1"] [("v1", STAGE1)] = [].
Proof. reflexivity. Qed.

(** ** Duration order *)

(** C4.  The [Duration] values of the output, read in output order, never
    increase. *)
Theorem durations_non_increasing `{K : SortKernel}
    (data : DataFrame) (request_ids : list string) (lcv_assignments : Dict) :
  Sorted (λ a b : Z, (b ≤ a)%Z)
    (Info.Duration
       <$> allocate_lcvs_to_routes_api data request_ids lcv_assignments).
Proof.
  rewrite allocate_assign, assign_durations.
  eapply Sorted_fmap; [|apply sort_values_sorted].
  intros a b Hab. exact Hab.
Qed.

(** ** Vehicles are used once and in priority order *)

(** C2, as stated, fails when a vehicle is called like the sentinel: with the
    single vehicle ["Pending"] and two selected routes, both entries carry
    ["Pending"] in [Allocated_LCV], whatever the sort kernel. *)
Lemma used_once_fails_for_pending_id :
  NoDup (keys Sample.fleet_pending)
  ∧ ¬ ∃ K : SortKernel,
        used_once_in_priority_order K Sample.two_routes Sample.all_ids
          Sample.fleet_pending.
Proof.
  split; [by_computation|].
  intros [K [Honce _]].
  specialize (Honce "Pending" ltac:(by_computation)).
  rewrite count_lcv_fmap, allocate_lcvs in Honce.
  vm_compute in Honce. lia.
Qed.

(** C2, amended.  With the keys of the mapping pairwise distinct: every key
    other than the literal ["Pending"] occurs in at most one entry's
    [Allocated_LCV] field; the entries filled from the vehicle queue (the
    leading ones, as many as there are vehicles) hold pairwise distinct
    vehicles; and among those entries, as among the entries whose field is not
    ["Pending"], a vehicle of strictly lower rank is never after one of higher
    rank. *)
Theorem assigned_once_in_priority_order `{K : SortKernel}
    (data : DataFrame) (request_ids : list string) (lcv_assignments : Dict) :
  NoDup (keys lcv_assignments) →
  let allocations :=
    allocate_lcvs_to_routes_api data request_ids lcv_assignments in
  let lcvs := Info.Allocated_LCV <$> allocations in
  (∀ lcv, lcv ∈ keys lcv_assignments → lcv ≠ "Pending" →
     (count_lcv lcv allocations ≤ 1)%nat)
  ∧ NoDup (take (length lcv_assignments) lcvs)
  ∧ (∀ i j a b,
       lcvs !! i = Some a → lcvs !! j = Some b →
       (i < length lcv_assignments)%nat →
       (j < length lcv_assignments)%nat →
       (lcv_key lcv_assignments a < lcv_key lcv_assignments b)%Z →
       (i ≤ j)%nat)
  ∧ (∀ i j a b,
       lcvs !! i = Some a → lcvs !! j = Some b →
       a ≠ "Pending" → b ≠ "Pending" →
       (lcv_key lcv_assignments a < lcv_key lcv_assignments b)%Z →
       (i ≤ j)%nat).
Proof.
  intros Hnd allocations lcvs.
  pose proof (prioritize_NoDup _ Hnd) as HndP.
  pose proof (prioritize_length lcv_assignments) as HlenP.
  assert (Hprefix : ∀ i a,
    lcvs !! i = Some a → (i < length lcv_assignments)%nat →
    prioritize lcv_assignments !! i = Some a).
  { intros i a Hi Hlt.
    rewrite <- (lookup_take_lt lcvs (length lcv_assignments)) in Hi by done.
    unfold lcvs, allocations in Hi. rewrite allocate_lcvs_take in Hi.
    by apply lookup_take_Some in Hi as [? _]. }
  assert (Hsuffix : ∀ i a,
    lcvs !! i = Some a → (length lcv_assignments ≤ i)%nat →
    a = "Pending").
  { intros i a Hi Hge. unfold lcvs, allocations in Hi.
    rewrite allocate_lcvs in Hi.
    apply lookup_app_Some in Hi as [Hi|[_ Hi]].
    - apply lookup_lt_Some in Hi. rewrite length_take in Hi. lia.
    - by apply lookup_replicate in Hi as [-> _]. }
  assert (Horder : ∀ i j a b,
    lcvs !! i = Some a → lcvs !! j = Some b →
    (i < length lcv_assignments)%nat → (j < length lcv_assignments)%nat →
    (lcv_key lcv_assignments a < lcv_key lcv_assignments b)%Z →
    (i ≤ j)%nat).
  { intros i j a b Hi Hj Hil Hjl Hlt.
    pose proof (prioritize_rank_order lcv_assignments i j a b
                  (Hprefix _ _ Hi Hil) (Hprefix _ _ Hj Hjl) Hlt). lia. }
  split_and!.
  - intros lcv _ Hne. unfold allocations.
    rewrite count_lcv_fmap, allocate_lcvs, count_eq_app.
    rewrite (count_eq_replicate_ne lcv "Pending") by done.
    rewrite Nat.add_0_r. apply count_eq_NoDup.
    eapply sublist_NoDup; [done|apply sublist_take].
  - unfold lcvs, allocations. rewrite allocate_lcvs_take.
    eapply sublist_NoDup; [done|apply sublist_take].
  - exact Horder.
  - intros i j a b Hi Hj Ha Hb Hlt.
    destruct (decide (i < length lcv_assignments)%nat) as [Hil|Hil];
      [|exfalso; apply Ha, (Hsuffix i); [done|lia]].
    destruct (decide (j < length lcv_assignments)%nat) as [Hjl|Hjl];
      [|exfalso; apply Hb, (Hsuffix j); [done|lia]].
    by eapply Horder.
Qed.

Lemma assigned_once_in_priority_order_witness :
  NoDup (keys Sample.fleet)
  ∧ NoDup (take (length Sample.fleet)
             (Info.Allocated_LCV
                <$> @allocate_lcvs_to_routes_api kind_stable Sample.dataset
                      Sample.all_ids Sample.fleet)).
Proof.
  assert (Hnd : NoDup (keys Sample.fleet)) by by_computation.
  split; [exact Hnd|].
  exact (proj1 (proj2 (@assigned_once_in_priority_order kind_stable
                         Sample.dataset Sample.all_ids Sample.fleet Hnd))).
Defined.

(** ** Pending entries *)

(** C5, as stated, fails when a vehicle is called like the sentinel: one
    vehicle, two selected routes, and two entries read ["Pending"], not one. *)
Lemma pending_fill_fails_for_pending_id :
  (length Sample.fleet_pending
   < length (select_routes Sample.two_routes Sample.all_ids))%nat
  ∧ ¬ ∃ K : SortKernel,
        pending_fill K Sample.two_routes Sample.all_ids Sample.fleet_pending.
Proof.
  split; [vm_compute; lia|].
  intros [K Hfill].
  destruct Hfill as [Hcount _]; [vm_compute; lia|].
  rewrite count_lcv_fmap, allocate_lcvs in Hcount.
  vm_compute in Hcount. discriminate.
Qed.

(** C5, amended.  With fewer vehicles than selected routes, the leading
    entries hold the prioritized vehicles, one each and in order, and every
    entry after them reads ["Pending"]: these are the routes left without a
    vehicle, as many as the routes exceed the vehicles.  When no vehicle is
    called ["Pending"], they are the only entries that read ["Pending"]. *)
Theorem pending_fill_after_queue `{K : SortKernel}
    (data : DataFrame) (request_ids : list string) (lcv_assignments : Dict) :
  let selected_data := select_routes data request_ids in
  let allocations :=
    allocate_lcvs_to_routes_api data request_ids lcv_assignments in
  let lcvs := Info.Allocated_LCV <$> allocations in
  (length lcv_assignments < length selected_data)%nat →
  take (length lcv_assignments) lcvs = prioritize lcv_assignments
  ∧ drop (length lcv_assignments) lcvs
    = replicate (length selected_data - length lcv_assignments) "Pending"
  ∧ ("Pending" ∉ keys lcv_assignments →
     count_lcv "Pending" allocations
     = (length selected_data - length lcv_assignments)%nat
     ∧ (∀ i lcv,
          lcvs !! i = Some lcv →
          lcv = "Pending" ↔ (length lcv_assignments ≤ i)%nat)).
Proof.
  intros selected_data allocations lcvs Hlt.
  pose proof (prioritize_length lcv_assignments) as HlenP.
  assert (Hlcvs : lcvs = prioritize lcv_assignments
            ++ replicate (length selected_data - length lcv_assignments)
                 "Pending").
  { unfold lcvs, allocations. rewrite allocate_lcvs.
    fold selected_data. by rewrite take_ge by lia. }
  split_and!.
  - rewrite Hlcvs. by apply take_app_length'.
  - rewrite Hlcvs. by apply drop_app_length'.
  - intros Hnotin. split.
    + unfold allocations. rewrite count_lcv_fmap. fold allocations lcvs.
      rewrite Hlcvs, count_eq_app, count_eq_replicate.
      rewrite count_eq_not_elem; [done|].
      by rewrite prioritize_elem_of.
    + intros i lcv Hi. rewrite Hlcvs in Hi.
      apply lookup_app_Some in Hi as [Hi|[Hge Hi]].
      * split.
        -- intros ->. exfalso. apply Hnotin, prioritize_elem_of.
           by eapply list_elem_of_lookup_2.
        -- apply lookup_lt_Some in Hi. lia.
      * apply lookup_replicate in Hi as [-> _]. split; [lia|done].
Qed.

Lemma pending_fill_after_queue_witness :
  (length Sample.small_fleet
   < length (select_routes Sample.dataset Sample.all_ids))%nat
  ∧ drop (length Sample.small_fleet)
      (Info.Allocated_LCV
         <$> @allocate_lcvs_to_routes_api kind_stable Sample.dataset
               Sample.all_ids Sample.small_fleet)
    = replicate
        (length (select_routes Sample.dataset Sample.all_ids)
         - length Sample.small_fleet) "Pending".
Proof.
  assert (Hlt : (length Sample.small_fleet
            < length (select_routes Sample.dataset Sample.all_ids))%nat)
    by (vm_compute; lia).
  split; [exact Hlt|].
  exact (proj1 (proj2 (@pending_fill_after_queue kind_stable Sample.dataset
                         Sample.all_ids Sample.small_fleet Hlt))).
Defined.

(** ** A vehicle called ["Pending"] *)

(** C9.  If the mapping has a vehicle called ["Pending"] and that vehicle is
    handed to a route (it stands in the priority order before the routes run
    out), then the entry of that route is exactly the dictionary a route
    without a vehicle gets, and the entries whose [Allocated_LCV] is
    ["Pending"] outnumber the routes that were left without a vehicle. *)
Theorem pending_id_collides_with_sentinel `{K : SortKernel}
    (data : DataFrame) (request_ids : list string) (lcv_assignments : Dict)
    (i : nat) :
  let selected_data := select_routes data request_ids in
  let allocations :=
    allocate_lcvs_to_routes_api data request_ids lcv_assignments in
  "Pending" ∈ keys lcv_assignments →
  prioritize lcv_assignments !! i = Some "Pending" →
  (i < length selected_data)%nat →
  allocations !! i
  = new_allocation_info <$> sort_values_desc selected_data !! i
  ∧ is_Some (allocations !! i)
  ∧ (length selected_data - length lcv_assignments
     < count_lcv "Pending" allocations)%nat.
Proof.
  intros selected_data allocations _ Hi Hlt. split_and!.
  - unfold allocations. rewrite allocate_assign, assign_lookup.
    fold selected_data. by rewrite Hi.
  - apply lookup_lt_is_Some. unfold allocations.
    by rewrite allocate_length.
  - unfold allocations.
    rewrite count_lcv_fmap, allocate_lcvs, count_eq_app, count_eq_replicate.
    fold selected_data.
    assert (0 < count_eq "Pending"
                  (take (length selected_data)
                     (prioritize lcv_assignments)))%nat;
      [|lia].
    apply count_eq_elem, elem_of_take. eauto.
Qed.

Lemma pending_id_collides_with_sentinel_witness :
  (length (select_routes Sample.two_routes Sample.all_ids)
   - length Sample.fleet_pending
   < count_lcv "Pending"
       (@allocate_lcvs_to_routes_api kind_stable Sample.two_routes
          Sample.all_ids Sample.fleet_pending))%nat.
Proof.
  refine (proj2 (proj2 (@pending_id_collides_with_sentinel kind_stable
            Sample.two_routes Sample.all_ids Sample.fleet_pending 0 _ _ _))).
  - by_computation.
  - reflexivity.
  - vm_compute; lia.
Defined.

(** ** Routes of equal duration *)

Lemma filter_route_columns d (rows : DataFrame) :
  filter (λ c : string * string * string * Z * Z, c.2 = d)
         (route_columns <$> rows)
  = route_columns <$> filter (λ r, Row.Duration r = d) rows.
Proof.
  induction rows as [|r rows IH]; [done|].
  rewrite fmap_cons, !filter_cons. simpl.
  destruct (decide (Row.Duration r = d)); by rewrite IH.
Qed.

Lemma allocate_sorting_with_kernel `{K : SortKernel}
    (data : DataFrame) (request_ids : list string) (lcv_assignments : Dict) :
  allocate_sorting_with sort_values_desc data request_ids lcv_assignments
  = allocate_lcvs_to_routes_api data request_ids lcv_assignments.
Proof. reflexivity. Qed.

(** On two rows the default sort leaves a tie as it stands. *)
Example quicksort_keeps_a_tie_of_two :
  sort_values_quicksort Sample.tied_routes = Sample.tied_routes.
Proof. reflexivity. Qed.

(** On the eighteen routes it returns them descending by duration, the six
    routes of duration 90 not in their dataset order. *)
Example quicksort_on_eighteen_routes :
  Row.Request_id <$> sort_values_quicksort Sample.eighteen_routes
  = ["REQ-03"; "REQ-06"; "REQ-15"; "REQ-09"; "REQ-02"; "REQ-12";
     "REQ-18"; "REQ-14"; "REQ-04"; "REQ-07"; "REQ-11";
     "REQ-17"; "REQ-01"; "REQ-13"; "REQ-08";
     "REQ-16"; "REQ-05"; "REQ-10"].
Proof. vm_compute. reflexivity. Qed.

(** C6, as stated, fails.  [sort_values] runs with its default algorithm,
    which is not stable: on eighteen selected routes the partition step
    exchanges rows of equal duration, and the output lists the routes of
    duration 90 as REQ-03, REQ-06, REQ-15, REQ-09, REQ-02, REQ-12, while the
    dataset has them as REQ-02, REQ-03, REQ-06, REQ-09, REQ-12, REQ-15. *)
Lemma ties_reordered_by_default_quicksort :
  ¬ ties_in_dataset_order_with sort_values_quicksort Sample.eighteen_routes
      Sample.eighteen_ids Sample.fleet.
Proof.
  intros Hties. specialize (Hties 90%Z).
  vm_compute in Hties. discriminate.
Qed.

(** C6, amended.  The output lists the selected routes in exactly the order
    [sort_values] returned them: a reordering of the selected routes that is
    descending by [Duration].  Routes of equal duration keep their dataset
    order whenever the sort behind [sort_values] keeps ties in input order, as
    a stable sort does. *)
Theorem route_order_follows_sort_kernel `{K : SortKernel}
    (data : DataFrame) (request_ids : list string) (lcv_assignments : Dict) :
  let selected_data := select_routes data request_ids in
  let allocations :=
    allocate_lcvs_to_routes_api data request_ids lcv_assignments in
  info_columns <$> allocations
  = route_columns <$> sort_values_desc selected_data
  ∧ sort_values_desc selected_data ≡ₚ selected_data
  ∧ Sorted dur_ge (sort_values_desc selected_data)
  ∧ (keeps_ties K →
     ties_in_dataset_order K data request_ids lcv_assignments).
Proof.
  intros selected_data allocations. split_and!.
  - apply allocate_columns.
  - apply sort_values_perm.
  - apply sort_values_sorted.
  - intros Hkeeps d. rewrite allocate_columns.
    by rewrite !filter_route_columns, Hkeeps.
Qed.

Lemma route_order_follows_sort_kernel_witness :
  keeps_ties kind_stable
  ∧ ties_in_dataset_order kind_stable Sample.tied_routes Sample.all_ids
      Sample.fleet.
Proof.
  split; [exact kind_stable_keeps_ties|].
  exact (proj2 (proj2 (proj2
           (@route_order_follows_sort_kernel kind_stable Sample.tied_routes
              Sample.all_ids Sample.fleet))) kind_stable_keeps_ties).
Defined.

(** ** The endpoint's outcomes *)

Section endpoint_facts.
Context `{K : SortKernel} (to_datetime_date : string → Parsed).

Lemma filter_nil_iff {A} (P : A → Prop) `{∀ x, Decision (P x)}
    (l : list A) :
  filter P l = [] ↔ ∀ x, x ∈ l → ¬ P x.
Proof.
  split.
  - intros Hnil x Hx HP.
    assert (x ∈ filter P l) as Hin by by apply list_elem_of_filter.
    rewrite Hnil in Hin. by apply not_elem_of_nil in Hin.
  - intros Hall. destruct (filter P l) as [|x l'] eqn:E; [done|].
    assert (x ∈ filter P l) as Hin by (rewrite E; left).
    apply list_elem_of_filter in Hin as [HP Hx]. by destruct (Hall x Hx).
Qed.

Lemma allocate_nil_iff data request_ids lcv_assignments :
  allocate_lcvs_to_routes_api data request_ids lcv_assignments = []
  ↔ ∀ row, row ∈ data → Row.Request_id row ∉ request_ids.
Proof.
  rewrite <- (filter_nil_iff (isin request_ids) data).
  fold (select_routes data request_ids).
  pose proof (allocate_length data request_ids lcv_assignments) as Hlen.
  split; intros Hnil; apply length_zero_iff_nil;
    apply (f_equal length) in Hnil; simpl in Hnil; lia.
Qed.

(** Against a calendar date the filter keeps the rows of that day and MGS;
    against [NaT] it keeps nothing. *)
Lemma filter_date_mgs_OnDay (data : DataFrame) d mgs :
  filter_date_mgs data (OnDay d) mgs = filter (matches_date_mgs d mgs) data.
Proof.
  unfold filter_date_mgs. apply list_filter_iff. intros row.
  unfold matches_date_mgs. split.
  - intros [[= ->] Hmgs]. done.
  - intros [-> Hmgs]. done.
Qed.

Lemma filter_date_mgs_NaT (data : DataFrame) mgs :
  filter_date_mgs data NaT mgs = [].
Proof.
  unfold filter_date_mgs. apply (filter_nil_iff _ data).
  intros row _ [Hnat _]. discriminate.
Qed.

Lemma allocate_for_date_outcome data request_date request :
  to_datetime_date (selected_date request) = Returns (OnDay request_date) →
  outcome to_datetime_date (Some data) request
    (allocate_for_date data (OnDay request_date) request).
Proof.
  intros Hdate. unfold allocate_for_date.
  destruct (filter_date_mgs data (OnDay request_date) (selected_mgs request))
    as [|row0 rows0] eqn:Efiltered.
  { eapply no_data_for_date_and_mgs; [done..|].
    rewrite filter_date_mgs_OnDay in Efiltered.
    by apply (filter_nil_iff _ data). }
  assert (Hmatch : ∃ row, row ∈ data
            ∧ matches_date_mgs request_date (selected_mgs request) row).
  { exists row0.
    assert (row0 ∈ filter_date_mgs data (OnDay request_date)
                     (selected_mgs request))
      as Hin by (rewrite Efiltered; left).
    rewrite filter_date_mgs_OnDay in Hin.
    apply list_elem_of_filter in Hin as [? ?]. done. }
  rewrite <- Efiltered.
  destruct (allocate_lcvs_to_routes_api _ _ _) as [|info0 infos] eqn:Ealloc.
  - eapply no_requested_id_matched; [done..|].
    intros row Hrow Hm.
    apply allocate_nil_iff with (row := row) in Ealloc; [done|].
    rewrite filter_date_mgs_OnDay. by apply list_elem_of_filter.
  - rewrite <- Ealloc. eapply success; [done..|].
    pose proof (allocate_length
      (filter_date_mgs data (OnDay request_date) (selected_mgs request))
      (selected_request_ids request) (lcv_stage_assignments request))
      as Hlen.
    rewrite Ealloc in Hlen.
    destruct (select_routes _ _) as [|row1 rows1] eqn:Esel; [done|].
    assert (row1 ∈ select_routes
              (filter_date_mgs data (OnDay request_date)
                 (selected_mgs request))
              (selected_request_ids request))
      as Hin by (rewrite Esel; left).
    apply list_elem_of_filter in Hin as [Hid Hin].
    rewrite filter_date_mgs_OnDay in Hin.
    apply list_elem_of_filter in Hin as [Hm Hin].
    by exists row1.
Qed.

(** The strings on which the [try] block does what the specification says:
    the parser gives a calendar date, or raises [ValueError]. *)
Definition date_check_covers (parsed : Parsed) : Prop :=
  match parsed with
  | Returns (OnDay _) | RaisesValueError => True
  | Returns NaT | RaisesOther _ => False
  end.

Lemma create_allocation_outcome df request :
  df = None ∨ date_check_covers (to_datetime_date (selected_date request)) →
  outcome to_datetime_date df request
    (create_allocation to_datetime_date df request).
Proof.
  intros Hcovers. unfold create_allocation. destruct df as [data|].
  - destruct Hcovers as [|Hcovers]; [done|].
    destruct (to_datetime_date (selected_date request)) as [[d|]| |exc]
      eqn:Edate; try done.
    + by apply allocate_for_date_outcome.
    + eapply invalid_date; [done|]. intros d. by rewrite Edate.
  - by apply backend_unavailable.
Qed.

(** The conditions exclude one another, so the response is determined. *)
Lemma outcome_deterministic df request response1 response2 :
  outcome to_datetime_date df request response1 →
  outcome to_datetime_date df request response2 →
  response1 = response2.
Proof.
  intros H1 H2.
  destruct H1 as [E1|a1 E1 P1|a1 d1 E1 P1 N1|a1 d1 E1 P1 X1 N1|a1 d1 E1 P1 X1];
    destruct H2
      as [E2|a2 E2 P2|a2 d2 E2 P2 N2|a2 d2 E2 P2 X2 N2|a2 d2 E2 P2 X2];
    try congruence; exfalso;
    try (by eapply P1); try (by eapply P2);
    assert (a1 = a2) by congruence; assert (d1 = d2) by congruence;
    subst a2 d2.
  - destruct X2 as (r & Hr & Hm). exact (N1 r Hr Hm).
  - destruct X2 as (r & Hr & Hm & _). exact (N1 r Hr Hm).
  - destruct X1 as (r & Hr & Hm). exact (N2 r Hr Hm).
  - destruct X2 as (r & Hr & Hm & Hid). exact (N1 r Hr Hm Hid).
  - destruct X1 as (r & Hr & Hm & _). exact (N2 r Hr Hm).
  - destruct X1 as (r & Hr & Hm & Hid). exact (N2 r Hr Hm Hid).
Qed.

(** Where the date check covers the string, the response is the one outcome
    whose condition holds. *)
Lemma five_outcomes_where_covered df request response :
  df = None ∨ date_check_covers (to_datetime_date (selected_date request)) →
  create_allocation to_datetime_date df request = response
  ↔ outcome to_datetime_date df request response.
Proof.
  intros Hcovers. split.
  - intros <-. by apply create_allocation_outcome.
  - intros Hout. eapply outcome_deterministic; [|exact Hout].
    by apply create_allocation_outcome.
Qed.

(** An exception that is not a [ValueError] leaves the handler, and only
    such an exception does. *)
Lemma uncaught_iff df request exception :
  create_allocation to_datetime_date df request = Uncaught exception
  ↔ ∃ data, df = Some data
      ∧ to_datetime_date (selected_date request) = RaisesOther exception.
Proof.
  unfold create_allocation. split.
  - destruct df as [data|]; [|done].
    destruct (to_datetime_date (selected_date request)) as [rd| |exc];
      [|done|intros [= ->]; eauto].
    unfold allocate_for_date.
    destruct (filter_date_mgs _ _ _); [done|].
    destruct (allocate_lcvs_to_routes_api _ _ _); done.
  - intros (data & -> & ->). done.
Qed.

(** A string read as [NaT] is not rejected: the filter runs, keeps nothing,
    and the answer is the 404 of an empty date and MGS. *)
Lemma missing_date_answers_404 data request :
  to_datetime_date (selected_date request) = Returns NaT →
  create_allocation to_datetime_date (Some data) request
  = HTTPException 404 "No data found for the selected date and MGS.".
Proof.
  intros Hnat. unfold create_allocation. rewrite Hnat.
  unfold allocate_for_date. by rewrite filter_date_mgs_NaT.
Qed.

(** C10.  With the dataset loaded, the 400 response is given exactly when
    parsing the date string raises [ValueError]; a string the parser accepts,
    whatever its format, is taken as the date it parses to and answered
    from the dataset; so two requests that differ only in how they
    write the same date receive the same response. *)
Theorem date_check_is_parser_acceptance
    (data : DataFrame) (request : AllocationRequest) :
  ((∃ detail,
      create_allocation to_datetime_date (Some data) request
      = HTTPException 400 detail)
   ↔ to_datetime_date (selected_date request) = RaisesValueError)
  ∧ (∀ request_date,
       to_datetime_date (selected_date request) = Returns request_date →
       create_allocation to_datetime_date (Some data) request
       = allocate_for_date data request_date request)
  ∧ (∀ request',
       to_datetime_date (selected_date request')
       = to_datetime_date (selected_date request) →
       selected_mgs request' = selected_mgs request →
       selected_request_ids request' = selected_request_ids request →
       lcv_stage_assignments request' = lcv_stage_assignments request →
       create_allocation to_datetime_date (Some data) request'
       = create_allocation to_datetime_date (Some data) request).
Proof.
  split_and!.
  - split.
    + intros [detail Hresp]. unfold create_allocation in Hresp.
      destruct (to_datetime_date (selected_date request)) as [rd| |exc];
        [|done|done].
      exfalso. unfold allocate_for_date in Hresp.
      destruct (filter_date_mgs _ _ _); [discriminate|].
      destruct (allocate_lcvs_to_routes_api _ _ _); discriminate.
    + intros Hraises. unfold create_allocation. rewrite Hraises. eauto.
  - intros rd Hd. unfold create_allocation. by rewrite Hd.
  - intros request' Hdate Hmgs Hids Hlcv. unfold create_allocation.
    rewrite Hdate.
    destruct (to_datetime_date (selected_date request)) as [rd| |exc];
      [|done|done].
    unfold allocate_for_date. by rewrite Hmgs, Hids, Hlcv.
Qed.
End endpoint_facts.

(** A date string read as [NaT] is answered from the dataset. *)
Example missing_date_request :
  @create_allocation kind_stable Sample.to_datetime_date
    (Some Sample.dataset) Sample.missing_date
  = HTTPException 404 "No data found for the selected date and MGS.".
Proof. reflexivity. Qed.

(** C7.  The operation does not always end in one of the five outcomes.  On
    the date string ["-1"] the parser raises [NotImplementedError]; the
    handler catches [ValueError] only, so with the dataset loaded the
    exception leaves the handler, where the specification grants the 400 of
    an invalid date. *)
Theorem uncaught_parser_exception_is_no_outcome :
  @create_allocation kind_stable Sample.to_datetime_date
    (Some Sample.dataset) Sample.minus_one
  = Uncaught "NotImplementedError"
  ∧ @outcome kind_stable Sample.to_datetime_date (Some Sample.dataset)
      Sample.minus_one
      (HTTPException 400 "Invalid date format. Please use YYYY-MM-DD.")
  ∧ ¬ @outcome kind_stable Sample.to_datetime_date (Some Sample.dataset)
        Sample.minus_one
        (@create_allocation kind_stable Sample.to_datetime_date
           (Some Sample.dataset) Sample.minus_one).
Proof.
  assert (Hclaimed :
    @outcome kind_stable Sample.to_datetime_date (Some Sample.dataset)
      Sample.minus_one
      (HTTPException 400 "Invalid date format. Please use YYYY-MM-DD.")).
  { eapply invalid_date; [done|]. intros d. discriminate. }
  split_and!; [done|exact Hclaimed|].
  intros Hout.
  pose proof (outcome_deterministic _ _ _ _ _ Hout Hclaimed) as Heq.
  discriminate.
Qed.


(** ** The store-passing allocator leaves its arguments alone *)

Section store_facts.
Context `{K : SortKernel}.

Lemma bind_run {A B} (m : M A) (f : A → M B) (σ σ' : Store) (x : A) :
  m σ = Some (x, σ') → (m ≫= f) σ = f x σ'.
Proof. intros Hm. unfold mbind, M_bind. by rewrite Hm. Qed.

Lemma read_frame_run (σ : Store) r rows :
  σ !! r = Some (PyFrame rows) → read_frame r σ = Some (rows, σ).
Proof. intros Hr. unfold read_frame. by rewrite Hr. Qed.

Lemma read_list_run (σ : Store) r items :
  σ !! r = Some (PyList items) → read_list r σ = Some (items, σ).
Proof. intros Hr. unfold read_list. by rewrite Hr. Qed.

Lemma read_dict_run (σ : Store) r d :
  σ !! r = Some (PyDict d) → read_dict r σ = Some (d, σ).
Proof. intros Hr. unfold read_dict. by rewrite Hr. Qed.

Lemma list_pop0_run (σ : Store) r x items :
  σ !! r = Some (PyList (x :: items)) →
  list_pop0 r σ = Some (x, <[r := PyList items]> σ).
Proof. intros Hr. unfold list_pop0. by rewrite Hr. Qed.

(** The loop pops one vehicle per route from the list object behind
    [lcvs_to_allocate], and touches no other object. *)
Lemma for_routes_run routes : ∀ (σ : Store) ref queue allocations,
  σ !! ref = Some (PyList queue) →
  for_routes routes ref allocations σ
  = Some (allocations ++ assign routes queue,
          <[ref := PyList (drop (length routes) queue)]> σ).
Proof.
  induction routes as [|route routes IH];
    intros σ ref queue allocations Href.
  - simpl. rewrite app_nil_r, drop_0, list_insert_id by done. done.
  - cbn [for_routes].
    rewrite (bind_run _ _ _ _ _ (read_list_run _ _ _ Href)).
    destruct queue as [|lcv queue].
    + erewrite bind_run by reflexivity.
      rewrite (IH σ ref [] _ Href).
      rewrite <- app_assoc. simpl. by rewrite drop_nil.
    + erewrite bind_run; last first.
      { erewrite bind_run by (by apply list_pop0_run). reflexivity. }
      assert (<[ref := PyList queue]> σ !! ref = Some (PyList queue))
        as Href'.
      { apply list_lookup_insert_eq. by eapply lookup_lt_Some. }
      rewrite (IH _ ref queue _ Href').
      rewrite <- app_assoc, list_insert_insert_eq. done.
Qed.

Lemma allocate_st_run (σ : Store) data request_ids lcv_assignments
    df ids assignments :
  σ !! data = Some (PyFrame df) →
  σ !! request_ids = Some (PyList ids) →
  σ !! lcv_assignments = Some (PyDict assignments) →
  ∃ created : Store,
    allocate_lcvs_to_routes_api_st data request_ids lcv_assignments σ
    = Some (allocate_lcvs_to_routes_api df ids assignments, σ ++ created).
Proof.
  intros Hdata Hids Hdict. unfold allocate_lcvs_to_routes_api_st.
  rewrite (bind_run _ _ _ _ _ (read_frame_run _ _ _ Hdata)).
  rewrite (bind_run _ _ _ _ _ (read_list_run _ _ _ Hids)).
  erewrite bind_run by reflexivity.
  set (selected := select_routes df ids).
  erewrite bind_run; last first.
  { apply read_frame_run. apply list_lookup_middle. done. }
  unfold allocate_lcvs_to_routes_api. fold selected.
  destruct selected as [|row rows] eqn:Esel.
  { eexists. reflexivity. }
  erewrite bind_run; last first.
  { apply read_dict_run. by apply lookup_app_l_Some. }
  erewrite bind_run by reflexivity.
  erewrite bind_run; last first.
  { apply read_list_run. apply list_lookup_middle. done. }
  erewrite bind_run by reflexivity.
  erewrite bind_run by reflexivity.
  erewrite bind_run; last first.
  { apply read_frame_run. apply list_lookup_middle. done. }
  erewrite for_routes_run; last first.
  { apply lookup_app_l_Some. apply list_lookup_middle. done. }
  rewrite foldl_loop_body. simpl.
  rewrite !length_app. rewrite <- !app_assoc.
  rewrite insert_app_r_alt by lia.
  eexists. reflexivity.
Qed.

(** C8.  Run on a store that holds the dataset, the id list and the
    mapping, the allocator returns the value of the pure function; the store
    it leaves behind is the one it started from followed by the objects it
    created, so the three arguments, like every other object that existed
    before the call, are as they were; and a second call on the store the
    first one left returns the same output. *)
Theorem allocate_st_pure (σ : list PyObj)
    (data request_ids lcv_assignments : nat)
    (df : DataFrame) (ids : list string) (assignments : Dict) :
  σ !! data = Some (PyFrame df) →
  σ !! request_ids = Some (PyList ids) →
  σ !! lcv_assignments = Some (PyDict assignments) →
  ∃ (allocations : list Info.t) (created created' : list PyObj),
    allocate_lcvs_to_routes_api_st data request_ids lcv_assignments σ
    = Some (allocations, σ ++ created)
    ∧ allocations = allocate_lcvs_to_routes_api df ids assignments
    ∧ (σ ++ created) !! data = Some (PyFrame df)
    ∧ (σ ++ created) !! request_ids = Some (PyList ids)
    ∧ (σ ++ created) !! lcv_assignments = Some (PyDict assignments)
    ∧ (∀ r o, σ !! r = Some o → (σ ++ created) !! r = Some o)
    ∧ allocate_lcvs_to_routes_api_st data request_ids lcv_assignments
        (σ ++ created)
      = Some (allocations, (σ ++ created) ++ created').
Proof.
  intros Hdata Hids Hdict.
  destruct (allocate_st_run σ _ _ _ _ _ _ Hdata Hids Hdict)
    as [created Hrun].
  assert (Hframe : ∀ r o, σ !! r = Some o → (σ ++ created) !! r = Some o).
  { intros r o Hr. by apply lookup_app_l_Some. }
  destruct (allocate_st_run (σ ++ created) _ _ _ _ _ _
              (Hframe _ _ Hdata) (Hframe _ _ Hids) (Hframe _ _ Hdict))
    as [created' Hrun'].
  exists (allocate_lcvs_to_routes_api df ids assignments), created, created'.
  split_and!; auto.
Qed.
End store_facts.

Lemma allocate_st_pure_witness :
  ∃ (allocations : list Info.t) (σ' : list PyObj),
    @allocate_lcvs_to_routes_api_st kind_stable 0 1 2
      [PyFrame Sample.dataset; PyList Sample.all_ids; PyDict Sample.fleet]
    = Some (allocations, σ')
    ∧ σ' !! 0 = Some (PyFrame Sample.dataset)
    ∧ σ' !! 1 = Some (PyList Sample.all_ids)
    ∧ σ' !! 2 = Some (PyDict Sample.fleet).
Proof.
  destruct (@allocate_st_pure kind_stable
              [PyFrame Sample.dataset; PyList Sample.all_ids;
               PyDict Sample.fleet]
              0 1 2 Sample.dataset Sample.all_ids Sample.fleet
              eq_refl eq_refl eq_refl)
    as (allocations & created & _ & Hrun & _ & H0 & H1 & H2 & _).
  eexists allocations, _.
  split_and!; [exact Hrun|exact H0|exact H1|exact H2].
Defined.

(** ** The scenarios of the specification, evaluated *)

(** Scenario 1: the longer route gets the Stage 3 vehicle. *)
Example two_routes_two_vehicles :
  (λ info, (Info.request_id info, Info.Allocated_LCV info))
    <$> @allocate_lcvs_to_routes_api kind_stable [Sample.r1; Sample.r2]
          ["r1"; "r2"]
          [("v1", STAGE1); ("v2", STAGE3)]
  = [("r2", "v2"); ("r1", "v1")].
Proof. reflexivity. Qed.

(** Scenario 2: no vehicle at all. *)
Example one_route_no_vehicle :
  (λ info, (Info.request_id info, Info.Allocated_LCV info))
    <$> @allocate_lcvs_to_routes_api kind_stable [Sample.r1] ["r1"] []
  = [("r1", "Pending")].
Proof. reflexivity. Qed.

(** Scenario 4: unrecognized stages rank last and keep their mapping order. *)
Example unrecognized_stages_last :
  prioritize Sample.fleet = ["LCV-2"; "LCV-3"; "LCV-1"; "LCV-9"; "LCV-8"].
Proof. reflexivity. Qed.

Lemma date_check_is_parser_acceptance_witness :
  @create_allocation kind_stable Sample.to_datetime_date
    (Some Sample.dataset) Sample.slashes
  = @create_allocation kind_stable Sample.to_datetime_date
      (Some Sample.dataset) Sample.iso.
Proof.
  exact (proj2 (proj2 (@date_check_is_parser_acceptance kind_stable
                         Sample.to_datetime_date Sample.dataset
                         Sample.iso))
           Sample.slashes eq_refl eq_refl eq_refl eq_refl).
Defined.

(** * Further properties of the allocator *)

Section allocator_more.
Context `{K : SortKernel}.
Implicit Types (data : DataFrame) (request_ids : list string).
Implicit Types (lcv_assignments : Dict).

(** X1.  With an empty vehicle mapping the allocator still lists every
    selected route, each with ["Pending"]. *)
Theorem empty_fleet_all_pending data request_ids :
  Info.Allocated_LCV <$> allocate_lcvs_to_routes_api data request_ids []
  = replicate (length (select_routes data request_ids)) "Pending".
Proof.
  rewrite allocate_lcvs.
  change (prioritize []) with (@nil string).
  change (length (@nil (string * string))) with 0.
  by rewrite take_nil, Nat.sub_0_r.
Qed.

(** X2.  With at least as many vehicles as selected routes no entry falls
    back to the default: the entries hold the best-ranked vehicles, one per
    route, every one a key of the mapping, and the vehicles left over are the
    tail of the priority order. *)
Theorem enough_vehicles_none_pending data request_ids lcv_assignments :
  (length (select_routes data request_ids) ≤ length lcv_assignments)%nat →
  let lcvs :=
    Info.Allocated_LCV
      <$> allocate_lcvs_to_routes_api data request_ids lcv_assignments in
  lcvs = take (length (select_routes data request_ids))
              (prioritize lcv_assignments)
  ∧ Forall (λ lcv, lcv ∈ keys lcv_assignments) lcvs
  ∧ lcvs ++ drop (length (select_routes data request_ids))
                 (prioritize lcv_assignments)
    = prioritize lcv_assignments.
Proof.
  intros Hle lcvs.
  assert (Hlcvs : lcvs = take (length (select_routes data request_ids))
                              (prioritize lcv_assignments)).
  { unfold lcvs. rewrite allocate_lcvs.
    replace (length (select_routes data request_ids)
             - length lcv_assignments) with 0 by lia.
    apply app_nil_r. }
  split_and!; [done| |by rewrite Hlcvs, take_drop].
  rewrite Hlcvs. apply Forall_forall. intros lcv Hin.
  apply prioritize_elem_of.
  apply elem_of_take in Hin as (i & Hi & _).
  by eapply list_elem_of_lookup_2.
Qed.

(** X3.  Whatever the inputs, an entry's [Allocated_LCV] is either the
    default ["Pending"] or a key of the mapping: the allocator never invents a
    vehicle. *)
Theorem allocated_lcv_is_key_or_pending data request_ids lcv_assignments :
  Forall (λ info,
            Info.Allocated_LCV info = "Pending"
            ∨ Info.Allocated_LCV info ∈ keys lcv_assignments)
    (allocate_lcvs_to_routes_api data request_ids lcv_assignments).
Proof.
  apply Forall_forall. intros info Hin.
  assert (Info.Allocated_LCV info
          ∈ Info.Allocated_LCV
              <$> allocate_lcvs_to_routes_api data request_ids lcv_assignments)
    as Hlcv by (apply list_elem_of_fmap; eauto).
  rewrite allocate_lcvs in Hlcv.
  apply elem_of_app in Hlcv as [Hq|Hp].
  - right. apply prioritize_elem_of.
    apply elem_of_take in Hq as (i & Hi & _).
    by eapply list_elem_of_lookup_2.
  - left. by apply elem_of_replicate in Hp as [-> _].
Qed.

(** X4.  The list of request ids acts as a set: two lists with the same
    members, in any order and with any repetitions, give the same
    allocation. *)
Theorem request_ids_act_as_a_set data request_ids request_ids'
    lcv_assignments :
  (∀ q, q ∈ request_ids ↔ q ∈ request_ids') →
  allocate_lcvs_to_routes_api data request_ids lcv_assignments
  = allocate_lcvs_to_routes_api data request_ids' lcv_assignments.
Proof.
  intros Hsame. rewrite !allocate_assign.
  assert (select_routes data request_ids = select_routes data request_ids')
    as ->; [|done].
  unfold select_routes. apply list_filter_iff.
  intros row. unfold isin. apply Hsame.
Qed.
End allocator_more.

Lemma request_ids_act_as_a_set_witness :
  @allocate_lcvs_to_routes_api kind_stable Sample.dataset
    ["REQ-2"; "REQ-1"; "REQ-2"] Sample.fleet
  = @allocate_lcvs_to_routes_api kind_stable Sample.dataset
      ["REQ-1"; "REQ-2"] Sample.fleet.
Proof.
  apply (@request_ids_act_as_a_set kind_stable).
  intros q. rewrite !elem_of_cons, !elem_of_nil. tauto.
Defined.

Lemma enough_vehicles_none_pending_witness :
  Info.Allocated_LCV
    <$> @allocate_lcvs_to_routes_api kind_stable Sample.dataset
          Sample.all_ids Sample.fleet
  = take (length (select_routes Sample.dataset Sample.all_ids))
         (prioritize Sample.fleet).
Proof.
  refine (proj1 (@enough_vehicles_none_pending kind_stable Sample.dataset
                   Sample.all_ids Sample.fleet _)).
  vm_compute. lia.
Defined.

Lemma count_eq_fmap {A} (f : A → string) (v : string) (l : list A) :
  length (filter (λ x, f x = v) l) = count_eq v (f <$> l).
Proof.
  unfold count_eq. induction l as [|x l IH]; [done|].
  rewrite fmap_cons, !filter_cons.
  destruct (decide (f x = v)); simpl; by rewrite IH.
Qed.

Lemma assign_request_ids routes queue :
  Info.request_id <$> assign routes queue = Row.Request_id <$> routes.
Proof.
  change Info.request_id with
    ((λ c : string * string * string * Z * Z, c.1.1.1.1) ∘ info_columns).
  change Row.Request_id with
    ((λ c : string * string * string * Z * Z, c.1.1.1.1) ∘ route_columns).
  by rewrite !list_fmap_compose, assign_columns.
Qed.

(** X5.  A request id stands for every dataset row that carries it: the
    output has as many entries with a given request id as the dataset has rows
    with it when the id was requested, and none when it was not. *)
Theorem entries_per_request_id `{K : SortKernel}
    (data : DataFrame) (request_ids : list string) (lcv_assignments : Dict)
    (q : string) :
  count_request q
    (allocate_lcvs_to_routes_api data request_ids lcv_assignments)
  = if decide (q ∈ request_ids)
    then length (filter (λ row, Row.Request_id row = q) data)
    else 0.
Proof.
  unfold count_request.
  rewrite (count_eq_fmap Info.request_id), allocate_assign.
  rewrite assign_request_ids, <- (count_eq_fmap Row.Request_id).
  rewrite sort_values_perm. unfold select_routes.
  rewrite list_filter_filter.
  destruct (decide (q ∈ request_ids)) as [Hin|Hnotin].
  - f_equal. apply list_filter_iff. intros row. unfold isin.
    split; [tauto|]. intros Hq. split; [done|]. by rewrite Hq.
  - apply length_zero_iff_nil. apply (filter_nil_iff _ data).
    intros row _ [Hq Hisin]. unfold isin in Hisin. by rewrite Hq in Hisin.
Qed.

(** X6.  Routes and vehicles are ordered independently and meet by position
    only: the [Allocated_LCV] column depends on the mapping and on how many
    routes were selected, not on which routes or on the sort behind
    [sort_values]; the route columns do not depend on the mapping. *)
Theorem routes_and_vehicles_meet_by_position
    (K K' : SortKernel) (data data' : DataFrame)
    (request_ids request_ids' : list string)
    (lcv_assignments lcv_assignments' : Dict) :
  (length (select_routes data request_ids)
   = length (select_routes data' request_ids') →
   Info.Allocated_LCV
     <$> @allocate_lcvs_to_routes_api K data request_ids lcv_assignments
   = Info.Allocated_LCV
       <$> @allocate_lcvs_to_routes_api K' data' request_ids' lcv_assignments)
  ∧ info_columns
      <$> @allocate_lcvs_to_routes_api K data request_ids lcv_assignments
    = info_columns
        <$> @allocate_lcvs_to_routes_api K data request_ids lcv_assignments'.
Proof.
  split.
  - intros Hlen. by rewrite !allocate_lcvs, Hlen.
  - by rewrite !allocate_columns.
Qed.

Lemma routes_and_vehicles_meet_by_position_witness :
  Info.Allocated_LCV
    <$> @allocate_lcvs_to_routes_api kind_stable Sample.two_routes
          Sample.all_ids Sample.fleet
  = Info.Allocated_LCV
      <$> @allocate_lcvs_to_routes_api ascending_flipped Sample.tied_routes
            Sample.all_ids Sample.fleet.
Proof.
  exact (proj1 (routes_and_vehicles_meet_by_position kind_stable
                  ascending_flipped Sample.two_routes Sample.tied_routes
                  Sample.all_ids Sample.all_ids Sample.fleet Sample.fleet)
           eq_refl).
Defined.

#[global] Instance dur_ge_trans : Transitive dur_ge.
Proof. intros a b c. unfold dur_ge. lia. Qed.



(** * Further properties of the loop over the store *)

(** X8.  On a store where [lcvs_to_allocate] refers to a list, the loop runs
    to its end without raising, whatever the lengths of the route list and of
    the queue: [pop(0)] is only reached on a non-empty list.  It appends one
    entry per route, leaves the list object holding the vehicles that were
    not handed out, and changes no other object. *)
Theorem loop_consumes_queue_in_place (σ : list PyObj) (ref : nat)
    (queue : list string) (routes : list Row.t) (allocations : list Info.t) :
  σ !! ref = Some (PyList queue) →
  ∃ σ' : list PyObj,
    for_routes routes ref allocations σ
    = Some (allocations ++ assign routes queue, σ')
    ∧ σ' !! ref = Some (PyList (drop (length routes) queue))
    ∧ length σ' = length σ
    ∧ (∀ r, r ≠ ref → σ' !! r = σ !! r).
Proof.
  intros Href. eexists. split; [by apply for_routes_run|].
  split_and!.
  - apply list_lookup_insert_eq. by eapply lookup_lt_Some.
  - apply length_insert.
  - intros r Hne. by apply list_lookup_insert_ne.
Qed.

Lemma loop_consumes_queue_in_place_witness :
  ∃ σ' : list PyObj,
    for_routes Sample.two_routes 1 []
      [PyDict Sample.fleet; PyList ["LCV-2"; "LCV-3"; "LCV-1"]]
    = Some (assign Sample.two_routes ["LCV-2"; "LCV-3"; "LCV-1"], σ')
    ∧ σ' !! 1 = Some (PyList ["LCV-1"]).
Proof.
  destruct (loop_consumes_queue_in_place
              [PyDict Sample.fleet; PyList ["LCV-2"; "LCV-3"; "LCV-1"]]
              1 ["LCV-2"; "LCV-3"; "LCV-1"] Sample.two_routes [] eq_refl)
    as (σ' & Hrun & Href & _).
  exists σ'. split; [exact Hrun|exact Href].
Defined.

(** * Further properties of the endpoint *)

Section endpoint_more.
Context `{K : SortKernel} (to_datetime_date : string → Parsed).

(** X9.  A 200 response is never empty and never reaches outside the
    request: the dataset was loaded, the date parsed, the body has one entry
    for each dataset row of the requested date and MGS that carries a
    requested id, and every entry repeats the route columns of such a row. *)
Theorem ok_body_from_matching_rows (df : option DataFrame)
    (request : AllocationRequest) (body : list Info.t) :
  create_allocation to_datetime_date df request = Ok200 body →
  body ≠ []
  ∧ ∃ data request_date,
      df = Some data
      ∧ to_datetime_date (selected_date request)
        = Returns (OnDay request_date)
      ∧ length body
        = length
            (filter (λ row,
                       Row.Request_id row ∈ selected_request_ids request
                       ∧ matches_date_mgs request_date (selected_mgs request)
                           row)
               data)
      ∧ Forall (λ info,
                  ∃ row, row ∈ data
                    ∧ matches_date_mgs request_date (selected_mgs request)
                        row
                    ∧ Row.Request_id row ∈ selected_request_ids request
                    ∧ info_columns info = route_columns row)
          body.
Proof.
  unfold create_allocation. destruct df as [data|]; [|done].
  destruct (to_datetime_date (selected_date request)) as [[d|]| |exc];
    [| |done|done].
  2:{ unfold allocate_for_date. by rewrite filter_date_mgs_NaT. }
  unfold allocate_for_date.
  destruct (filter_date_mgs data (OnDay d) (selected_mgs request))
    as [|row0 rows0] eqn:Efiltered; [done|].
  rewrite <- Efiltered.
  destruct (allocate_lcvs_to_routes_api _ _ _) as [|info0 infos] eqn:Ealloc;
    [done|].
  intros [= <-]. split; [done|].
  exists data, d. split_and!; [done..| |].
  - rewrite <- Ealloc, allocate_length. unfold select_routes.
    by rewrite filter_date_mgs_OnDay, list_filter_filter.
  - rewrite <- Ealloc. apply Forall_forall. intros info Hin.
    assert (info_columns info
            ∈ info_columns
                <$> allocate_lcvs_to_routes_api
                      (filter_date_mgs data (OnDay d)
                         (selected_mgs request))
                      (selected_request_ids request)
                      (lcv_stage_assignments request))
      as Hcols by (apply list_elem_of_fmap; eauto).
    rewrite allocate_columns in Hcols.
    apply list_elem_of_fmap in Hcols as (row & Heq & Hrow).
    rewrite sort_values_perm in Hrow.
    apply list_elem_of_filter in Hrow as [Hid Hrow].
    rewrite filter_date_mgs_OnDay in Hrow.
    apply list_elem_of_filter in Hrow as [Hm Hrow].
    by exists row.
Qed.

(** X10.  The vehicle mapping never decides whether a request succeeds: two
    requests that differ only in [lcv_stage_assignments] get the same status
    code, so an empty mapping is answered 200 wherever a full one is. *)
Theorem status_ignores_fleet (df : option DataFrame)
    (date mgs : string) (request_ids : list string)
    (lcv_assignments lcv_assignments' : Dict) :
  status_code
    (create_allocation to_datetime_date df
       {| selected_date := date; selected_mgs := mgs;
          selected_request_ids := request_ids;
          lcv_stage_assignments := lcv_assignments |})
  = status_code
      (create_allocation to_datetime_date df
         {| selected_date := date; selected_mgs := mgs;
            selected_request_ids := request_ids;
            lcv_stage_assignments := lcv_assignments' |}).
Proof.
  unfold create_allocation. destruct df as [data|]; [|done]. simpl.
  destruct (to_datetime_date date) as [d| |exc]; [|done|done].
  unfold allocate_for_date. simpl.
  destruct (filter_date_mgs data d mgs) as [|row0 rows0] eqn:Efiltered;
    [done|].
  rewrite <- Efiltered.
  pose proof (allocate_length (filter_date_mgs data d mgs) request_ids
                lcv_assignments) as Hlen.
  pose proof (allocate_length (filter_date_mgs data d mgs) request_ids
                lcv_assignments') as Hlen'.
  destruct (allocate_lcvs_to_routes_api _ _ lcv_assignments),
    (allocate_lcvs_to_routes_api _ _ lcv_assignments');
    simpl in *; try done; lia.
Qed.

(** X11.  A request that selects no id is never answered 200: the response
    is one of the three errors. *)
Theorem no_request_id_never_ok (df : option DataFrame)
    (date mgs : string) (lcv_assignments : Dict) :
  status_code
    (create_allocation to_datetime_date df
       {| selected_date := date; selected_mgs := mgs;
          selected_request_ids := [];
          lcv_stage_assignments := lcv_assignments |})
  ∈ [500; 400; 404]%Z.
Proof.
  unfold create_allocation. destruct df as [data|]; [|set_solver]. simpl.
  destruct (to_datetime_date date) as [d| |exc];
    [|set_solver|simpl; set_solver].
  unfold allocate_for_date. simpl.
  destruct (filter_date_mgs data d mgs) as [|row0 rows0] eqn:Efiltered;
    [set_solver|].
  rewrite <- Efiltered.
  assert (allocate_lcvs_to_routes_api (filter_date_mgs data d mgs) []
            lcv_assignments = []) as ->.
  { apply allocate_nil_iff. intros row _. apply not_elem_of_nil. }
  set_solver.
Qed.
End endpoint_more.

Lemma ok_body_from_matching_rows_witness :
  let body :=
    @allocate_lcvs_to_routes_api kind_stable
      (filter_date_mgs Sample.dataset (OnDay Sample.day) "MGS-1")
      ["REQ-1"; "REQ-2"] Sample.small_fleet in
  @create_allocation kind_stable Sample.to_datetime_date
    (Some Sample.dataset) Sample.iso
  = Ok200 body
  ∧ body ≠ [].
Proof.
  intros body.
  assert (Hok : @create_allocation kind_stable Sample.to_datetime_date
                  (Some Sample.dataset) Sample.iso = Ok200 body)
    by reflexivity.
  split; [exact Hok|].
  exact (proj1 (@ok_body_from_matching_rows kind_stable
                  Sample.to_datetime_date (Some Sample.dataset) Sample.iso
                  body Hok)).
Defined.

(** * Properties of the data loading *)

Lemma filter_zip_with {A B C} (f : A → B → C) (P : C → Prop)
    `{∀ z, Decision (P z)} (l : list A) : ∀ k : list B,
  filter P (zip_with f l k)
  = (λ p, f p.1 p.2) <$> filter (λ p, P (f p.1 p.2)) (zip l k).
Proof.
  induction l as [|x l IH]; intros [|y k]; try done.
  change (zip_with f (x :: l) (y :: k)) with (f x y :: zip_with f l k).
  change (zip (x :: l) (y :: k)) with ((x, y) :: zip l k).
  rewrite !filter_cons. simpl.
  destruct (decide (P (f x y))); rewrite IH; done.
Qed.

Section load_data_facts.
Context {Cell : Type}.
Context (read_excel : string → Raised + list (Sheet.t Cell)).
Context (to_datetime : list Cell → string + list Timestamp).

(** X12.  When the sheet is read and its [create_date] column converts, one
    timestamp per cell, [load_data] prints nothing and returns the sheet's
    rows in their order, none dropped, each with [date_only] set to the
    calendar date of its own timestamp. *)
Theorem load_data_keeps_rows (file_path : string)
    (sheet : list (Sheet.t Cell)) (create_date : list Timestamp) :
  read_excel file_path = inr sheet →
  to_datetime (Sheet.create_date <$> sheet) = inr create_date →
  length create_date = length sheet →
  ∃ rows : DataFrame,
    load_data read_excel to_datetime file_path = (Some rows, [])
    ∧ length rows = length sheet
    ∧ (∀ i raw ts,
         sheet !! i = Some raw → create_date !! i = Some ts →
         rows !! i = Some (with_date_only raw (dt_date ts))).
Proof.
  intros Hread Hconv Hlen. unfold load_data. rewrite Hread, Hconv.
  eexists. split; [reflexivity|]. split.
  - rewrite length_zip_with, length_fmap. lia.
  - intros i raw ts Hraw Hts.
    rewrite lookup_zip_with, Hraw, list_lookup_fmap, Hts. done.
Qed.

(** X13.  [load_data] lets no exception out: when reading the file or
    converting the column raises, it returns [None] and prints one line, which
    names the path when the file was not found; the endpoint then answers
    every request with 500.  It prints nothing when it returns a frame. *)
Theorem failed_load_answers_500 `{K : SortKernel} :
  let loaded := load_data read_excel to_datetime DATA_FILE in
  (loaded.1 = None
   ↔ (∃ exn, read_excel DATA_FILE = inl exn)
     ∨ (∃ sheet e,
          read_excel DATA_FILE = inr sheet
          ∧ to_datetime (Sheet.create_date <$> sheet) = inl e))
  ∧ (loaded.1 = None →
     length loaded.2 = 1
     ∧ ∀ to_datetime_date request,
         create_allocation to_datetime_date (df read_excel to_datetime)
           request
         = HTTPException 500
             "Data could not be loaded. API is non-operational.")
  ∧ (read_excel DATA_FILE = inl FileNotFoundError →
     loaded.2 = ["Error: Data file not found at 16 July, 2024.xlsx"])
  ∧ (is_Some loaded.1 → loaded.2 = []).
Proof.
  intros loaded. unfold loaded, df, load_data.
  destruct (read_excel DATA_FILE) as [[|e]|sheet] eqn:Hread;
    [| |destruct (to_datetime (Sheet.create_date <$> sheet))
          as [e|ts] eqn:Hconv];
    simpl; split_and!;
    try done;
    try (intros [? ?]; done);
    try (split; [intros _|done]; eauto 6).
  split; [done|].
  intros [[exn Hexn]|(sheet' & e & Hs & He)]; [done|].
  injection Hs as <-. rewrite Hconv in He. done.
Qed.

(** X14.  Rows are matched by calendar day: out of a loaded sheet, a request
    date and MGS select exactly the rows whose timestamp falls on that day,
    at whatever time, and whose MGS is the requested one. *)
Theorem loaded_rows_match_by_calendar_day (file_path : string)
    (sheet : list (Sheet.t Cell)) (create_date : list Timestamp)
    (rows : DataFrame) (request_date : Date) (mgs : string) :
  read_excel file_path = inr sheet →
  to_datetime (Sheet.create_date <$> sheet) = inr create_date →
  (load_data read_excel to_datetime file_path).1 = Some rows →
  filter_date_mgs rows (OnDay request_date) mgs
  = (λ p, with_date_only p.1 (dt_date p.2))
      <$> filter (λ p : Sheet.t Cell * Timestamp,
                    dt_date p.2 = request_date ∧ Sheet.MGS p.1 = mgs)
            (zip sheet create_date).
Proof.
  intros Hread Hconv. unfold load_data. rewrite Hread, Hconv. simpl.
  intros [= <-]. rewrite filter_date_mgs_OnDay.
  unfold matches_date_mgs. rewrite zip_with_fmap_r.
  by rewrite (filter_zip_with (λ raw ts, with_date_only raw (dt_date ts))).
Qed.
End load_data_facts.

Lemma load_data_keeps_rows_witness :
  ∃ rows : DataFrame,
    load_data SampleSheet.read_excel SampleSheet.to_datetime DATA_FILE
    = (Some rows, [])
    ∧ length rows = length SampleSheet.sheet.
Proof.
  destruct (load_data_keeps_rows SampleSheet.read_excel
              SampleSheet.to_datetime DATA_FILE SampleSheet.sheet
              (Sheet.create_date <$> SampleSheet.sheet)
              eq_refl eq_refl eq_refl)
    as (rows & Hload & Hlen & _).
  exists rows. split; [exact Hload|exact Hlen].
Defined.

Lemma failed_load_answers_500_witness :
  @create_allocation kind_stable Sample.to_datetime_date
    (df SampleSheet.read_excel_missing SampleSheet.to_datetime) Sample.iso
  = HTTPException 500 "Data could not be loaded. API is non-operational.".
Proof.
  exact (proj2 (proj1 (proj2 (@failed_load_answers_500 Timestamp
                  SampleSheet.read_excel_missing SampleSheet.to_datetime
                  kind_stable)) eq_refl)
           Sample.to_datetime_date Sample.iso).
Defined.

Lemma loaded_rows_match_by_calendar_day_witness :
  length
    (filter_date_mgs
       (zip_with with_date_only SampleSheet.sheet
          (dt_date <$> (Sheet.create_date <$> SampleSheet.sheet)))
       (OnDay Sample.day) "MGS-1")
  = 2.
Proof.
  rewrite (loaded_rows_match_by_calendar_day SampleSheet.read_excel
             SampleSheet.to_datetime DATA_FILE SampleSheet.sheet
             (Sheet.create_date <$> SampleSheet.sheet) _ Sample.day "MGS-1"
             eq_refl eq_refl eq_refl).
  reflexivity.
Defined.
